(** * Financial risk flags: a shallow embedding of [rules.py] and [app.py]

    The rule-evaluation core takes the Python object produced by
    [json.loads] and derives three flags from it.  The embedding keeps the
    Python data (dictionaries, lists, [int], [float], [str], [bool],
    [None]) and the Python exceptions: every operation returns either a
    value or the exception it raises, and [try ... except KeyError] is a
    handler on that result. *)

From Stdlib Require Import ZArith QArith Qpower String Floats.SpecFloat Lia.
From stdpp Require Import base option list gmap strings.

#[local] Open Scope string_scope.
#[local] Open Scope Z_scope.

(** ** Exceptions and results *)

(** The exceptions the program can end with.  The last two come from
    reading and decoding the upload only. *)
Inductive exn : Set :=
| KeyError | IndexError | TypeError | AttributeError
| ZeroDivisionError | OverflowError
| UnicodeDecodeError | RecursionError.

#[global] Instance exn_eq_dec : EqDecision exn := ltac:(solve_decision).

Inductive result (A : Type) : Type :=
| Ok (a : A)
| Raise (e : exn).
Arguments Ok {A} a.
Arguments Raise {A} e.

#[global] Instance result_ret : MRet result := fun _ a => Ok a.
#[global] Instance result_bind : MBind result := fun _ _ f m =>
  match m with
  | Ok a => f a
  | Raise e => Raise e
  end.

(** [try: body except e: handler].  Only the named exception is caught. *)
Definition try_except {A} (body : result A) (e : exn) (handler : result A)
  : result A :=
  match body with
  | Ok a => Ok a
  | Raise e' => if decide (e' = e) then handler else Raise e'
  end.

Definition returns {A} (r : result A) : Prop := exists a, r = Ok a.

(** The exceptions of the arithmetic, and the results that are a value
    or one of them. *)
Definition arithmetic (e : exn) : Prop :=
  e = ZeroDivisionError \/ e = OverflowError.

Definition arithmetic_only {A} (r : result A) : Prop :=
  match r with
  | Ok _ => True
  | Raise e => arithmetic e
  end.

(** ** Python values *)

Module Py.

(** The objects [json.loads] builds.  A [float] is an IEEE 754 binary64
    number, held in the Standard Library's [spec_float]. *)
#[warnings="-register-all"]
Inductive value : Type :=
| JNull
| JBool (b : bool)
| JInt (z : Z)
| JFloat (f : spec_float)
| JStr (s : string)
| JList (l : list value)
| JDict (d : gmap string value).

Definition prec : Z := 53.
Definition emax : Z := 1024.

Definition f_zero : spec_float := S754_zero false.                  (* 0.0 *)
Definition f_quarter : spec_float :=                               (* 0.25 *)
  Eval cbv in binary_normalize prec emax 1 (-2) false.

(** *** Subscription and [.get] *)

(** [l[i]] on a list: negative indices count from the end. *)
Definition list_index {A} (l : list A) (i : Z) : option A :=
  let n := Z.of_nat (length l) in
  if 0 <=? i then l !! Z.to_nat i
  else if - n <=? i then l !! Z.to_nat (n + i)
  else None.

Definition chars (s : string) : list value :=
  (fun a => JStr (String a EmptyString)) <$> list_ascii_of_string s.

(** [v[k]] with a string key.  Only a dictionary accepts it. *)
Definition getitem_str (v : value) (k : string) : result value :=
  match v with
  | JDict d => match d !! k with
               | Some x => Ok x
               | None => Raise KeyError
               end
  | _ => Raise TypeError
  end.

(** [v[i]] with an integer.  The keys of a dictionary are strings, so an
    integer key is never found. *)
Definition getitem_int (v : value) (i : Z) : result value :=
  match v with
  | JList l => match list_index l i with
               | Some x => Ok x
               | None => Raise IndexError
               end
  | JStr s => match list_index (chars s) i with
              | Some x => Ok x
              | None => Raise IndexError
              end
  | JDict _ => Raise KeyError
  | _ => Raise TypeError
  end.

(** [v.get(k, dflt)]: a method of dictionaries only. *)
Definition get (v : value) (k : string) (dflt : value) : result value :=
  match v with
  | JDict d => Ok (default dflt (d !! k))
  | _ => Raise AttributeError
  end.

(** The items a [for] loop sees.  A dictionary yields its keys and a
    string its characters. *)
Definition iter (v : value) : result (list value) :=
  match v with
  | JList l => Ok l
  | JDict d => Ok (JStr <$> (map_to_list d).*1)
  | JStr s => Ok (chars s)
  | _ => Raise TypeError
  end.

(** [v == "..."] against a string literal. *)
Definition eq_str (v : value) (s : string) : bool :=
  match v with
  | JStr t => bool_decide (t = s)
  | _ => false
  end.

(** *** Numbers *)

(** The exact value of a number.  Python compares [int] and [float]
    by exact value, so comparisons go through this type. *)
Inductive number : Set :=
| Nan
| Inf (neg : bool)
| Fin (q : Q).

Definition float_value (f : spec_float) : number :=
  match f with
  | S754_zero _ => Fin 0
  | S754_infinity s => Inf s
  | S754_nan => Nan
  | S754_finite s m e => Fin (inject_Z (cond_Zopp s (Zpos m)) * 2 ^ e)
  end.

(** [bool] is a subclass of [int]. *)
Definition as_int (v : value) : option Z :=
  match v with
  | JInt z => Some z
  | JBool b => Some (Z.b2z b)
  | _ => None
  end.

Definition number_of (v : value) : option number :=
  match v with
  | JFloat f => Some (float_value f)
  | _ => (fun z => Fin (inject_Z z)) <$> as_int v
  end.

Definition num_compare (a b : number) : option comparison :=
  match a, b with
  | Nan, _ | _, Nan => None
  | Inf s1, Inf s2 =>
      Some (match s1, s2 with
            | true, false => Lt
            | false, true => Gt
            | _, _ => Eq
            end)
  | Inf s, Fin _ => Some (if s then Lt else Gt)
  | Fin _, Inf s => Some (if s then Gt else Lt)
  | Fin p, Fin q => Some (p ?= q)%Q
  end.

(** [a >= c] and [a <= c] where [c] is a number; any other kind of [a]
    is a [TypeError]. *)
Definition ge (a c : value) : result bool :=
  match number_of a, number_of c with
  | Some x, Some y =>
      Ok (match num_compare x y with
          | Some (Gt | Eq) => true
          | _ => false
          end)
  | _, _ => Raise TypeError
  end.

Definition le (a c : value) : result bool :=
  match number_of a, number_of c with
  | Some x, Some y =>
      Ok (match num_compare x y with
          | Some (Lt | Eq) => true
          | _ => false
          end)
  | _, _ => Raise TypeError
  end.

(** [a != 0]: never raises; what is not a number differs from 0. *)
Definition ne_zero (a : value) : bool :=
  match number_of a with
  | Some x => match num_compare x (Fin 0) with
              | Some Eq => false
              | _ => true
              end
  | None => true
  end.

(** [float(z)]: round to nearest even; too large is an error. *)
Definition float_of_int (z : Z) : result spec_float :=
  match binary_normalize prec emax z 0 false with
  | S754_infinity _ => Raise OverflowError
  | f => Ok f
  end.

Definition as_float (v : value) : option (result spec_float) :=
  match v with
  | JFloat f => Some (Ok f)
  | _ => float_of_int <$> as_int v
  end.

(** [a + b].  Two ints give an int; a float on either side gives a
    float; strings and lists concatenate. *)
Definition add (a b : value) : result value :=
  match as_int a, as_int b with
  | Some x, Some y => Ok (JInt (x + y))
  | _, _ =>
      match as_float a, as_float b with
      | Some ra, Some rb =>
          x ← ra; y ← rb; Ok (JFloat (SFadd prec emax x y))
      | _, _ =>
          match a, b with
          | JStr s, JStr t => Ok (JStr (s +:+ t))
          | JList l, JList k => Ok (JList (l ++ k))
          | _, _ => Raise TypeError
          end
      end
  end.

(** An integer as an operand of the integer true division: the integer
    itself is the mantissa, so the quotient is rounded once. *)
Definition int_operand (z : Z) : spec_float :=
  match z with
  | Z0 => S754_zero false
  | Zpos p => S754_finite false p 0
  | Zneg p => S754_finite true p 0
  end.

Definition is_zero (f : spec_float) : bool :=
  match f with
  | S754_zero _ => true
  | _ => false
  end.

(** [a / b], true division. *)
Definition truediv (a b : value) : result value :=
  match as_int a, as_int b with
  | Some x, Some y =>
      if decide (y = 0) then Raise ZeroDivisionError
      else match SFdiv prec emax (int_operand x) (int_operand y) with
           | S754_infinity _ => Raise OverflowError
           | f => Ok (JFloat f)
           end
  | _, _ =>
      match as_float a, as_float b with
      | Some ra, Some rb =>
          x ← ra; y ← rb;
          if is_zero y then Raise ZeroDivisionError
          else Ok (JFloat (SFdiv prec emax x y))
      | _, _ => Raise TypeError
      end
  end.

End Py.

Import Py.

(** ** rules.py *)

Module FLAGS.
Definition GREEN : Z := 1.
Definition AMBER : Z := 2.
Definition RED : Z := 0.
Definition MEDIUM_RISK : Z := 3.
Definition WHITE : Z := 4.
End FLAGS.

(** The body of the loop of [latest_financial_index], from position
    [index] on; the empty list is the [return 0] after the loop. *)
Fixpoint scan_financials (index : Z) (financials : list value) : result Z :=
  match financials with
  | [] => Ok 0
  | financial :: rest =>
      nature ← Py.get financial "nature" JNull;
      if Py.eq_str nature "STANDALONE" then Ok index
      else scan_financials (index + 1) rest
  end.

Definition latest_financial_index (data : value) : result Z :=
  financials ← Py.get data "financials" JNull;
  items ← Py.iter financials;
  scan_financials 0 items.

(** [data["financials"][financial_index]["lineItems"][name]] *)
Definition section_of (data : value) (financial_index : Z) (name : string)
  : result value :=
  financials ← getitem_str data "financials";
  entry ← getitem_int financials financial_index;
  line_items ← getitem_str entry "lineItems";
  getitem_str line_items name.

Definition total_revenue (data : value) (financial_index : Z) : result value :=
  try_except
    (pnl_section ← section_of data financial_index "pnl";
     getitem_str pnl_section "netRevenue")
    KeyError (Ok (JFloat f_zero)).

Definition total_borrowing (data : value) (financial_index : Z)
  : result value :=
  try_except
    (bs_section ← section_of data financial_index "bs";
     long_term_borrowings ← Py.get bs_section "longTermBorrowings" (JInt 0);
     short_term_borrowings ← Py.get bs_section "shortTermBorrowings" (JInt 0);
     total_borrowings ← Py.add long_term_borrowings short_term_borrowings;
     total_rev ← total_revenue data financial_index;
     if Py.ne_zero total_rev then Py.truediv total_borrowings total_rev
     else Ok (JFloat f_zero))
    KeyError (Ok (JFloat f_zero)).

Definition pbitda_key : string :=
  "profitBeforeInterestAndTaxAndDepreciationAndAmortization".

Definition iscr (data : value) (financial_index : Z) : result value :=
  try_except
    (pnl_section ← section_of data financial_index "pnl";
     bs_section ← section_of data financial_index "bs";
     pbitda ← Py.get pnl_section pbitda_key (JInt 0);
     interest_expenses ← Py.get bs_section "interestExpenses" (JInt 0);
     numerator ← Py.add pbitda (JInt 1);
     denominator ← Py.add interest_expenses (JInt 1);
     Py.truediv numerator denominator)
    KeyError (Ok (JFloat f_zero)).

Definition iscr_flag (data : value) (financial_index : Z) : result Z :=
  iscr_value ← iscr data financial_index;
  green ← Py.ge iscr_value (JInt 2);
  Ok (if green : bool then FLAGS.GREEN else FLAGS.RED).

Definition total_revenue_5cr_flag (data : value) (financial_index : Z)
  : result Z :=
  total_rev ← total_revenue data financial_index;
  green ← Py.ge total_rev (JInt 50000000);
  Ok (if green : bool then FLAGS.GREEN else FLAGS.RED).

Definition borrowing_to_revenue_flag (data : value) (financial_index : Z)
  : result Z :=
  borrowing_to_revenue_ratio ← total_borrowing data financial_index;
  green ← Py.le borrowing_to_revenue_ratio (JFloat f_quarter);
  Ok (if green : bool then FLAGS.GREEN else FLAGS.AMBER).

(** ** app.py *)

Definition flags_dict (revenue borrowing coverage : Z) : value :=
  JDict {[ "flags" :=
    JDict {[ "TOTAL_REVENUE_5CR_FLAG" := JInt revenue;
             "BORROWING_TO_REVENUE_FLAG" := JInt borrowing;
             "ISCR_FLAG" := JInt coverage ]} ]}.

Definition probe_model_5l_profit (data : value) : result value :=
  lastest_financial_index_value ← latest_financial_index data;
  total_revenue_5cr_flag_value ←
    total_revenue_5cr_flag data lastest_financial_index_value;
  borrowing_to_revenue_flag_value ←
    borrowing_to_revenue_flag data lastest_financial_index_value;
  iscr_flag_value ← iscr_flag data lastest_financial_index_value;
  Ok (flags_dict total_revenue_5cr_flag_value
                 borrowing_to_revenue_flag_value iscr_flag_value).

(** [main]: the page.  The Streamlit calls are kept as the list of what
    has been shown so far; an exception ends the run and leaves on the page
    what was shown before it. *)
Inductive widget : Type :=
| st_title (body : string)
| st_file_uploader (label type : string)
| st_header (body : string)
| st_write (label : string) (v : value)
| st_error (body : string).

Definition ui (A : Type) : Type := list widget -> list widget * result A.

#[global] Instance ui_ret : MRet ui := fun _ a shown => (shown, Ok a).
#[global] Instance ui_bind : MBind ui := fun _ _ f m shown =>
  match m shown with
  | (shown', Ok a) => f a shown'
  | (shown', Raise e) => (shown', Raise e)
  end.

Definition show (w : widget) : ui unit :=
  fun shown => ((shown ++ [w])%list, Ok ()).
Definition eval {A} (r : result A) : ui A := fun shown => (shown, r).

(** What [st.file_uploader], [uploaded_file.read()] and [json.loads] hand
    to [main]: no file; a content that [json.loads] rejects with
    [JSONDecodeError]; a content on which reading or decoding raises
    another exception (a [UnicodeDecodeError] on bytes that are no valid
    text, a [RecursionError] on nesting too deep); or the document that
    [json.loads] builds. *)
Inductive upload : Type :=
| no_file
| invalid_json
| loads_raises (e : exn)
| document (data : value).

(** [result["flags"][name]], the argument of an [st.write]. *)
Definition flag_of (probed : value) (name : string) : result value :=
  flags ← getitem_str probed "flags";
  getitem_str flags name.

Definition main (uploaded_file : upload) : list widget * result unit :=
  (show (st_title "Financial Analysis Streamlit App");;
   show (st_file_uploader "Upload a JSON file" "json");;
   match uploaded_file with
   | no_file => mret ()
   | invalid_json =>
       show (st_error "Invalid JSON file. Please upload a valid JSON file.")
   | loads_raises e => eval (Raise e)
   | document data =>
       result ← eval (inner ← getitem_str data "data";
                      probe_model_5l_profit inner);
       show (st_header "Financial Flags");;
       revenue ← eval (flag_of result "TOTAL_REVENUE_5CR_FLAG");
       show (st_write "TOTAL_REVENUE_5CR_FLAG:" revenue);;
       borrowing ← eval (flag_of result "BORROWING_TO_REVENUE_FLAG");
       show (st_write "BORROWING_TO_REVENUE_FLAG:" borrowing);;
       coverage ← eval (flag_of result "ISCR_FLAG");
       show (st_write "ISCR_FLAG:" coverage)
   end : ui unit) [].

(** ** The data model of the records

    A Financial Record is a mapping whose ["financials"] is a sequence of
    Financial Entries; an entry is a mapping with a ["nature"] and a
    ["lineItems"] mapping of the sections ["pnl"] and ["bs"]; the fields of
    a section are numbers, and every field may be absent. *)

Definition is_dict (v : value) : bool :=
  match v with
  | JDict _ => true
  | _ => false
  end.

Definition is_number (v : value) : bool :=
  match v with
  | JInt _ | JFloat _ => true
  | _ => false
  end.

Definition absent_or (P : value -> bool) (o : option value) : bool :=
  match o with
  | None => true
  | Some v => P v
  end.

Definition pnl_fields : list string := ["netRevenue"; pbitda_key].
Definition bs_fields : list string :=
  ["longTermBorrowings"; "shortTermBorrowings"; "interestExpenses"].

Definition wf_section (fields : list string) (v : value) : bool :=
  match v with
  | JDict s => forallb (fun k => absent_or is_number (s !! k)) fields
  | _ => false
  end.

Definition wf_line_items (v : value) : bool :=
  match v with
  | JDict li =>
      absent_or (wf_section pnl_fields) (li !! "pnl")
      && absent_or (wf_section bs_fields) (li !! "bs")
  | _ => false
  end.

Definition is_str (v : value) : bool :=
  match v with
  | JStr _ => true
  | _ => false
  end.

Definition wf_entry (v : value) : bool :=
  match v with
  | JDict e =>
      absent_or is_str (e !! "nature")
      && absent_or wf_line_items (e !! "lineItems")
  | _ => false
  end.

Definition wf_record (v : value) : bool :=
  match v with
  | JDict d =>
      absent_or (fun f => match f with
                          | JList l => forallb wf_entry l
                          | _ => false
                          end) (d !! "financials")
  | _ => false
  end.

(** The entry the index selects, when the record has one there. *)
Definition entry_at (data : value) (i : Z) : option (gmap string value) :=
  match data with
  | JDict d =>
      match d !! "financials" with
      | Some (JList l) =>
          match list_index l i with
          | Some (JDict e) => Some e
          | _ => None
          end
      | _ => None
      end
  | _ => None
  end.

(** Where ["lineItems"] and its two sections are present they are
    mappings.  Nothing is asked of the fields. *)
Definition line_items_ok (e : gmap string value) : bool :=
  absent_or (fun v => match v with
                      | JDict li =>
                          absent_or is_dict (li !! "pnl")
                          && absent_or is_dict (li !! "bs")
                      | _ => false
                      end) (e !! "lineItems").

(** A section of an entry; [None] when ["lineItems"] or the section is
    missing. *)
Definition section (e : gmap string value) (name : string)
  : option (gmap string value) :=
  match e !! "lineItems" with
  | Some (JDict li) =>
      match li !! name with
      | Some (JDict s) => Some s
      | _ => None
      end
  | _ => None
  end.

(** A field of a section, 0 when absent. *)
Definition field (s : gmap string value) (k : string) : value :=
  default (JInt 0) (s !! k).

(** The order of the exact values: [at_least x c] is [x >= c] and
    [at_most x c] is [x <= c]; a NaN is neither. *)
Definition at_least (x : number) (c : Q) : Prop :=
  match x with
  | Fin q => (c <= q)%Q
  | Inf neg => neg = false
  | Nan => False
  end.

Definition at_most (x : number) (c : Q) : Prop :=
  match x with
  | Fin q => (q <= c)%Q
  | Inf neg => neg = true
  | Nan => False
  end.

Definition exactly_zero (v : value) : Prop :=
  exists q, number_of v = Some (Fin q) /\ (q == 0)%Q.

(** An entry whose ["nature"] is the string ["STANDALONE"]. *)
Definition standalone (v : value) : Prop :=
  match v with
  | JDict e => e !! "nature" = Some (JStr "STANDALONE")
  | _ => False
  end.

(** The keys of the mapping under ["flags"]. *)
Definition flag_names : gset string :=
  {[ "TOTAL_REVENUE_5CR_FLAG"; "BORROWING_TO_REVENUE_FLAG"; "ISCR_FLAG" ]}.

(** Records used as examples. *)
Definition entry (nature : string) (pnl bs : gmap string value) : value :=
  JDict {[ "nature" := JStr nature;
           "lineItems" := JDict {[ "pnl" := JDict pnl; "bs" := JDict bs ]} ]}.

Definition record (financials : list value) : value :=
  JDict {[ "financials" := JList financials ]}.

Definition filing (revenue pbitda long short interest : value) : value :=
  record [entry "STANDALONE"
            {[ "netRevenue" := revenue; pbitda_key := pbitda ]}
            {[ "longTermBorrowings" := long;
               "shortTermBorrowings" := short;
               "interestExpenses" := interest ]}].

(** The double nearest to the fraction [n / d], as a decimal literal is
    read. *)
Definition float_of_decimal (n d : Z) : spec_float :=
  SFdiv prec emax (int_operand n) (int_operand d).

(** 49999999.99 *)
Definition f_49999999_99 : spec_float :=
  Eval cbv in float_of_decimal 4999999999 100.

(** The sign bit of a float; a NaN has none. *)
Definition sign_of (f : spec_float) : option bool :=
  match f with
  | S754_zero s | S754_finite s _ _ | S754_infinity s => Some s
  | S754_nan => None
  end.

(** A result that is a value or one of the exceptions listed. *)
Definition raises_only {A} (allowed : list exn) (r : result A) : Prop :=
  match r with
  | Ok _ => True
  | Raise e => e ∈ allowed
  end.

(** The widgets [main] shows before it looks at the upload. *)
Definition page_top : list widget :=
  [st_title "Financial Analysis Streamlit App";
   st_file_uploader "Upload a JSON file" "json"].

(** ** Results and handlers *)

Lemma bind_ok_inv {A B} (m : result A) (f : A -> result B) (b : B) :
  m ≫= f = Ok b -> exists a, m = Ok a /\ f a = Ok b.
Proof. destruct m as [a|e]; [eauto | discriminate]. Qed.

Ltac inv_bind H :=
  let a := fresh "a" in
  let Ha := fresh "H" a in
  apply bind_ok_inv in H as (a & Ha & H).

Lemma bind_ok {A B} (a : A) (f : A -> result B) : (Ok a ≫= f) = f a.
Proof. reflexivity. Qed.

Lemma try_except_other {A} e' e (h : result A) :
  e' <> e -> try_except (Raise e') e h = Raise e'.
Proof. intros Hne. unfold try_except. by rewrite decide_False. Qed.

(** ** Lookups through an entry *)

Lemma section_of_entry data i e name :
  entry_at data i = Some e ->
  section_of data i name =
    match e !! "lineItems" with
    | None => Raise KeyError
    | Some li => getitem_str li name
    end.
Proof.
  unfold entry_at, section_of. intros H.
  destruct data as [| | | | | |d]; try discriminate. simpl.
  destruct (d !! "financials") as [[| | | | |l|]|]; try discriminate. simpl.
  destruct (list_index l i) as [[| | | | | |e']|]; try discriminate.
  injection H as ->. simpl. by destruct (e !! "lineItems").
Qed.

Lemma section_of_ok data i e name :
  entry_at data i = Some e -> line_items_ok e = true ->
  name = "pnl" \/ name = "bs" ->
  section_of data i name =
    match section e name with
    | Some s => Ok (JDict s)
    | None => Raise KeyError
    end.
Proof.
  intros He Hok Hname. rewrite (section_of_entry _ _ _ _ He).
  unfold line_items_ok, section in *.
  destruct (e !! "lineItems") as [[| | | | | |li]|]; simpl in *;
    try discriminate; try reflexivity.
  apply andb_prop in Hok as [Hp Hb].
  destruct Hname as [-> | ->].
  - by destruct (li !! "pnl") as [[| | | | | |s]|].
  - by destruct (li !! "bs") as [[| | | | | |s]|].
Qed.

(** Under [line_items_ok] a section is [None] exactly when it is missing:
    there is no ["lineItems"], or ["lineItems"] has no such key. *)
Lemma section_missing (e : gmap string value) name :
  line_items_ok e = true ->
  name = "pnl" \/ name = "bs" ->
  section e name = None
  <-> e !! "lineItems" = None
      \/ exists li, e !! "lineItems" = Some (JDict li) /\ li !! name = None.
Proof.
  unfold line_items_ok, section. intros Hok Hname.
  destruct (e !! "lineItems") as [[| | | | | |li]|]; simpl in Hok;
    try discriminate; [|by split; [left|]].
  apply andb_prop in Hok as [Hp Hb].
  assert (absent_or is_dict (li !! name) = true) as Hs
    by (by destruct Hname as [-> | ->]).
  destruct (li !! name) as [[| | | | | |s]|] eqn:E; try discriminate.
  - split; [done|]. intros [H | (li' & [= <-] & H)]; congruence.
  - split; [|done]. intros _. right. by exists li.
Qed.

(** [total_revenue] for an entry that is there: the field, or 0.0. *)
Lemma total_revenue_entry data i e :
  entry_at data i = Some e -> line_items_ok e = true ->
  total_revenue data i =
    Ok (match section e "pnl" with
        | Some pnl => default (JFloat f_zero) (pnl !! "netRevenue")
        | None => JFloat f_zero
        end).
Proof.
  intros He Hok. unfold total_revenue.
  rewrite (section_of_ok _ _ _ _ He Hok) by auto.
  destruct (section e "pnl") as [pnl|]; simpl; [|done].
  by destruct (pnl !! "netRevenue").
Qed.

(** ** The entry selector *)

Lemma nature_test (e : gmap string value) :
  Py.eq_str (default JNull (e !! "nature")) "STANDALONE" = true
  <-> standalone (JDict e).
Proof.
  simpl. destruct (e !! "nature") as [[| | | |s| |]|]; simpl;
    try (split; [discriminate | by intros [=]]).
  rewrite bool_decide_eq_true. split; [by intros -> | by intros [= ->]].
Qed.

Lemma scan_step k (e : gmap string value) rest :
  scan_financials k (JDict e :: rest) =
    if Py.eq_str (default JNull (e !! "nature")) "STANDALONE" then Ok k
    else scan_financials (k + 1) rest.
Proof. reflexivity. Qed.

Lemma scan_first l : forall k n x,
  forallb is_dict l = true ->
  l !! n = Some x -> standalone x ->
  (forall j y, l !! j = Some y -> (j < n)%nat -> ~ standalone y) ->
  scan_financials k l = Ok (k + Z.of_nat n).
Proof.
  induction l as [|v l IH]; intros k n x Hd Hn Hx Hfirst; [done|].
  simpl in Hd. apply andb_prop in Hd as [Hv Hd].
  destruct v as [| | | | | |e]; try discriminate. rewrite scan_step.
  destruct n as [|n]; simpl in Hn.
  - injection Hn as <-. apply nature_test in Hx. rewrite Hx.
    f_equal. lia.
  - destruct (Py.eq_str _ _) eqn:E.
    + apply nature_test in E.
      by destruct (Hfirst 0%nat (JDict e) eq_refl); [lia|].
    + rewrite (IH (k + 1) n x Hd Hn Hx).
      * f_equal. lia.
      * intros j y Hj Hlt. apply (Hfirst (S j) y Hj). lia.
Qed.

Lemma scan_none l : forall k,
  forallb is_dict l = true ->
  (forall x, x ∈ l -> ~ standalone x) ->
  scan_financials k l = Ok 0.
Proof.
  induction l as [|v l IH]; intros k Hd Hno; [done|].
  simpl in Hd. apply andb_prop in Hd as [Hv Hd].
  destruct v as [| | | | | |e]; try discriminate. rewrite scan_step.
  destruct (Py.eq_str _ _) eqn:E.
  - apply nature_test in E. destruct (Hno (JDict e)); [left | done].
  - apply IH; [done|]. intros x Hx. apply Hno. by right.
Qed.

Lemma scan_returns l : forall k,
  forallb is_dict l = true -> returns (scan_financials k l).
Proof.
  induction l as [|v l IH]; intros k Hd; [by eexists|].
  simpl in Hd. apply andb_prop in Hd as [Hv Hd].
  destruct v as [| | | | | |e]; try discriminate. rewrite scan_step.
  destruct (Py.eq_str _ _); [by eexists | by apply IH].
Qed.

(** The index found is never negative. *)
Lemma scan_nonneg l : forall k i,
  0 <= k -> scan_financials k l = Ok i -> 0 <= i.
Proof.
  induction l as [|v l IH]; intros k i Hk H; simpl in H.
  - injection H as <-. lia.
  - destruct (Py.get v "nature" JNull) as [nature|]; [|discriminate].
    simpl in H. destruct (Py.eq_str nature "STANDALONE").
    + injection H as <-. lia.
    + apply (IH (k + 1)); [lia | done].
Qed.

(** ** The flags *)

Lemma iscr_flag_range data i f :
  iscr_flag data i = Ok f -> f = FLAGS.GREEN \/ f = FLAGS.RED.
Proof.
  unfold iscr_flag. intros H. inv_bind H. inv_bind H.
  injection H as <-. destruct a0; auto.
Qed.

Lemma total_revenue_5cr_flag_range data i f :
  total_revenue_5cr_flag data i = Ok f -> f = FLAGS.GREEN \/ f = FLAGS.RED.
Proof.
  unfold total_revenue_5cr_flag. intros H. inv_bind H. inv_bind H.
  injection H as <-. destruct a0; auto.
Qed.

Lemma borrowing_to_revenue_flag_range data i f :
  borrowing_to_revenue_flag data i = Ok f ->
  f = FLAGS.GREEN \/ f = FLAGS.AMBER.
Proof.
  unfold borrowing_to_revenue_flag. intros H. inv_bind H. inv_bind H.
  injection H as <-. destruct a0; auto.
Qed.

(** ** Properties of the selector and of the orchestrator *)

Lemma latest_financial_index_returns (d : gmap string value) l :
  d !! "financials" = Some (JList l) ->
  forallb is_dict l = true ->
  returns (latest_financial_index (JDict d)).
Proof.
  intros Hf Hd. unfold latest_financial_index. simpl. rewrite Hf. simpl.
  by apply scan_returns.
Qed.

(** C4.  When ["financials"] is a sequence of entries,
    [latest_financial_index] returns the index of the first entry whose
    ["nature"] is ["STANDALONE"], and 0 when no entry is (the empty
    sequence included); it raises nothing in either case. *)
Theorem latest_financial_index_first_standalone
    (d : gmap string value) (l : list value) :
  d !! "financials" = Some (JList l) ->
  forallb is_dict l = true ->
  (forall n x,
      l !! n = Some x -> standalone x ->
      (forall j y, l !! j = Some y -> (j < n)%nat -> ~ standalone y) ->
      latest_financial_index (JDict d) = Ok (Z.of_nat n))
  /\ ((forall x, x ∈ l -> ~ standalone x) ->
      latest_financial_index (JDict d) = Ok 0)
  /\ returns (latest_financial_index (JDict d)).
Proof.
  intros Hf Hd. split; [|split].
  - intros n x Hn Hx Hfirst.
    unfold latest_financial_index. simpl. rewrite Hf. simpl.
    by rewrite (scan_first l 0 n x Hd Hn Hx Hfirst).
  - intros Hno. unfold latest_financial_index. simpl. rewrite Hf. simpl.
    by apply scan_none.
  - by apply (latest_financial_index_returns d l).
Qed.

Lemma latest_financial_index_first_standalone_witness :
  latest_financial_index
    (record [entry "CONSOLIDATED" ∅ ∅; entry "STANDALONE" ∅ ∅;
             entry "STANDALONE" ∅ ∅]) = Ok 1
  /\ latest_financial_index (record []) = Ok 0
  /\ latest_financial_index (record [entry "CONSOLIDATED" ∅ ∅]) = Ok 0.
Proof.
  split; [|split].
  - refine (proj1 (latest_financial_index_first_standalone
                     {[ "financials" :=
                          JList [entry "CONSOLIDATED" ∅ ∅;
                                 entry "STANDALONE" ∅ ∅;
                                 entry "STANDALONE" ∅ ∅] ]}
                     [entry "CONSOLIDATED" ∅ ∅; entry "STANDALONE" ∅ ∅;
                      entry "STANDALONE" ∅ ∅] eq_refl eq_refl)
                  1%nat (entry "STANDALONE" ∅ ∅) eq_refl _ _).
    + vm_compute. reflexivity.
    + intros [|j] y Hy Hlt; [|lia]. injection Hy as <-.
      vm_compute. discriminate.
  - refine (proj1 (proj2 (latest_financial_index_first_standalone
                            {[ "financials" := JList [] ]} []
                            eq_refl eq_refl)) _).
    intros x Hx. inversion Hx.
  - refine (proj1 (proj2 (latest_financial_index_first_standalone
                            {[ "financials" :=
                                 JList [entry "CONSOLIDATED" ∅ ∅] ]}
                            [entry "CONSOLIDATED" ∅ ∅]
                            eq_refl eq_refl)) _).
    intros x Hx. apply list_elem_of_singleton in Hx as ->.
    vm_compute. discriminate.
Defined.

(** With no entry at the index the lookup of a section stops on the list
    subscript. *)
Lemma section_of_no_entry (d : gmap string value) l i name :
  d !! "financials" = Some (JList l) ->
  list_index l i = None ->
  section_of (JDict d) i name = Raise IndexError.
Proof.
  intros Hf Hi. unfold section_of. simpl. rewrite Hf. simpl. by rewrite Hi.
Qed.

(** C1.  The orchestrator is not total on well-formed mappings.  A mapping
    without ["financials"], the empty mapping included, stops the selector
    with a [TypeError] (iteration over [None]); a record whose
    ["financials"] is empty stops [total_revenue] with an [IndexError],
    which the [KeyError] handler lets through. *)
Theorem probe_model_5l_profit_raises (d : gmap string value) :
  (d !! "financials" = None ->
   probe_model_5l_profit (JDict d) = Raise TypeError)
  /\ (d !! "financials" = Some (JList []) ->
      latest_financial_index (JDict d) = Ok 0
      /\ probe_model_5l_profit (JDict d) = Raise IndexError).
Proof.
  split.
  - intros Hf. unfold probe_model_5l_profit, latest_financial_index.
    simpl. by rewrite Hf.
  - intros Hf.
    assert (latest_financial_index (JDict d) = Ok 0) as Hi
      by (unfold latest_financial_index; simpl; by rewrite Hf).
    split; [done|].
    unfold probe_model_5l_profit. rewrite Hi, bind_ok.
    unfold total_revenue_5cr_flag, total_revenue.
    by rewrite (section_of_no_entry d [] 0 "pnl" Hf eq_refl).
Qed.

Lemma probe_model_5l_profit_raises_witness :
  wf_record (JDict ∅) = true
  /\ probe_model_5l_profit (JDict ∅) = Raise TypeError
  /\ wf_record (record []) = true
  /\ probe_model_5l_profit (record []) = Raise IndexError.
Proof.
  split; [reflexivity|]. split; [|split; [reflexivity|]].
  - exact (proj1 (probe_model_5l_profit_raises ∅) eq_refl).
  - exact (proj2 (proj2 (probe_model_5l_profit_raises
                           {[ "financials" := JList [] ]}) eq_refl)).
Defined.

(** C2.  A missing entry is not turned into 0.0: with no entry at the
    selected index [total_revenue] raises [IndexError]. *)
Theorem total_revenue_missing_entry (d : gmap string value) l i :
  d !! "financials" = Some (JList l) ->
  list_index l i = None ->
  total_revenue (JDict d) i = Raise IndexError.
Proof.
  intros Hf Hi. unfold total_revenue.
  by rewrite (section_of_no_entry d l i "pnl" Hf Hi).
Qed.

Lemma total_revenue_missing_entry_witness :
  total_revenue (record []) 0 = Raise IndexError
  /\ total_revenue (record [entry "STANDALONE" ∅ ∅]) 1 = Raise IndexError.
Proof.
  split.
  - exact (total_revenue_missing_entry
             {[ "financials" := JList [] ]} [] 0 eq_refl eq_refl).
  - exact (total_revenue_missing_entry
             {[ "financials" := JList [entry "STANDALONE" ∅ ∅] ]}
             [entry "STANDALONE" ∅ ∅] 1 eq_refl eq_refl).
Defined.

(** An entry with an empty ["lineItems"]: every ratio is 0.0 and the flags
    are RED, GREEN, RED. *)
Example probe_empty_line_items :
  probe_model_5l_profit (record [JDict {[ "lineItems" := JDict ∅ ]}])
  = Ok (flags_dict FLAGS.RED FLAGS.GREEN FLAGS.RED).
Proof. vm_compute. reflexivity. Qed.

(** C3.  The orchestrator does not return a mapping for every record: a
    record with an empty ["financials"] is well formed and gets no result
    at all, the [IndexError] of [total_revenue] ending the evaluation. *)
Lemma probe_model_5l_profit_no_result :
  wf_record (record []) = true
  /\ ~ exists r, probe_model_5l_profit (record []) = Ok r.
Proof.
  split; [vm_compute; reflexivity|].
  intros [r Hr]. vm_compute in Hr. discriminate.
Qed.

(** X19.  Every result the orchestrator returns is a mapping with the
    one key ["flags"], bound to a mapping with exactly the three flag
    names as keys, each bound to 0, 1 or 2; 3 (MEDIUM_RISK) and 4 (WHITE)
    never appear. *)
Theorem probe_model_5l_profit_result data r :
  probe_model_5l_profit data = Ok r ->
  exists flags : gmap string value,
    r = JDict {[ "flags" := JDict flags ]}
    /\ dom flags = flag_names
    /\ forall k v, flags !! k = Some v ->
         exists z, v = JInt z /\ 0 <= z <= 2
                   /\ z <> FLAGS.MEDIUM_RISK /\ z <> FLAGS.WHITE.
Proof.
  unfold probe_model_5l_profit. intros H.
  inv_bind H. inv_bind H. inv_bind H. inv_bind H. injection H as <-.
  apply total_revenue_5cr_flag_range in Ha0.
  apply borrowing_to_revenue_flag_range in Ha1.
  apply iscr_flag_range in Ha2.
  eexists. split; [reflexivity|]. split.
  - unfold flag_names. rewrite !dom_insert_L, dom_singleton_L. set_solver.
  - intros k v Hk.
    apply lookup_insert_Some in Hk as [[_ <-]|[_ Hk]];
      [|apply lookup_insert_Some in Hk as [[_ <-]|[_ Hk]];
        [|apply lookup_singleton_Some in Hk as [_ <-]]].
    all: eexists; split; [reflexivity|].
    all: unfold FLAGS.GREEN, FLAGS.RED, FLAGS.AMBER, FLAGS.MEDIUM_RISK,
           FLAGS.WHITE in *; lia.
Qed.

Lemma probe_model_5l_profit_result_witness :
  exists flags : gmap string value,
    flags_dict 0 1 1 = JDict {[ "flags" := JDict flags ]}
    /\ dom flags = flag_names
    /\ forall k v, flags !! k = Some v ->
         exists z, v = JInt z /\ 0 <= z <= 2
                   /\ z <> FLAGS.MEDIUM_RISK /\ z <> FLAGS.WHITE.
Proof.
  apply (probe_model_5l_profit_result
           (filing (JInt 100) (JInt 3) (JInt 10) (JInt 15) (JInt 1))).
  vm_compute. reflexivity.
Defined.

(** ** Arithmetic and comparisons *)

Lemma try_except_id {A} (r : result A) e h :
  r <> Raise e -> try_except r e h = r.
Proof.
  destruct r as [a|e']; [done|]. intros Hne.
  apply try_except_other. congruence.
Qed.

Lemma float_of_int_exn z e : float_of_int z = Raise e -> e = OverflowError.
Proof.
  unfold float_of_int.
  destruct (binary_normalize prec emax z 0 false); congruence.
Qed.

Lemma as_float_exn v r e :
  as_float v = Some r -> r = Raise e -> e = OverflowError.
Proof.
  destruct v; simpl; intros [= <-]; try discriminate;
    apply float_of_int_exn.
Qed.

Lemma add_exn a b e :
  Py.add a b = Raise e -> e = TypeError \/ e = OverflowError.
Proof.
  unfold Py.add.
  destruct (as_int a), (as_int b); try discriminate.
  all: destruct (as_float a) as [[x|ea]|] eqn:Ea;
       destruct (as_float b) as [[y|eb]|] eqn:Eb; simpl;
       try discriminate;
       try (intros [= <-]; right;
            first [exact (as_float_exn _ _ _ Ea eq_refl)
                  |exact (as_float_exn _ _ _ Eb eq_refl)]).
  all: destruct a; try (intros [= <-]; by left);
       destruct b; try (intros [= <-]; by left); discriminate.
Qed.

Lemma truediv_exn a b e :
  Py.truediv a b = Raise e ->
  e = TypeError \/ e = ZeroDivisionError \/ e = OverflowError.
Proof.
  unfold Py.truediv.
  destruct (as_int a) as [x|], (as_int b) as [y|].
  1: { destruct (decide (y = 0)); [intros [= <-]; auto|].
       destruct (SFdiv _ _ _ _); try discriminate. intros [= <-]; auto. }
  all: destruct (as_float a) as [[x'|ea]|] eqn:Ea;
       destruct (as_float b) as [[y'|eb]|] eqn:Eb; simpl;
       try (intros [= <-]; by left);
       try (intros [= <-]; right; right;
            first [exact (as_float_exn _ _ _ Ea eq_refl)
                  |exact (as_float_exn _ _ _ Eb eq_refl)]).
  all: destruct (is_zero _); [intros [= <-]; auto | discriminate].
Qed.

(** What a division returns is a float. *)
Lemma truediv_float a b v : Py.truediv a b = Ok v -> exists f, v = JFloat f.
Proof.
  unfold Py.truediv.
  destruct (as_int a) as [x|], (as_int b) as [y|].
  1: { destruct (decide (y = 0)); [discriminate|].
       destruct (SFdiv _ _ _ _); try discriminate; intros [= <-]; eauto. }
  all: destruct (as_float a) as [[x'|ea]|];
       destruct (as_float b) as [[y'|eb]|]; simpl; try discriminate.
  all: destruct (is_zero _); [discriminate | intros [= <-]; eauto].
Qed.

Lemma ge_int v x (c : Z) :
  number_of v = Some x ->
  exists b, Py.ge v (JInt c) = Ok b /\ (b = true <-> at_least x (inject_Z c)).
Proof.
  intros Hv. unfold Py.ge. rewrite Hv. simpl.
  eexists. split; [reflexivity|].
  destruct x as [|[]|q]; simpl; try (split; [discriminate | done]);
    try done.
  rewrite (Qge_alt q (inject_Z c)).
  destruct (q ?= inject_Z c)%Q; split; congruence.
Qed.

Lemma quarter_value :
  exists q, float_value f_quarter = Fin q /\ (q == 1 # 4)%Q.
Proof. eexists. split; [reflexivity|]. vm_compute. reflexivity. Qed.

Lemma le_quarter v x :
  number_of v = Some x ->
  exists b, Py.le v (JFloat f_quarter) = Ok b
            /\ (b = true <-> at_most x (1 # 4)).
Proof.
  intros Hv. unfold Py.le. rewrite Hv.
  destruct quarter_value as (c & Hc & Hq).
  change (number_of (JFloat f_quarter)) with (Some (float_value f_quarter)).
  rewrite Hc. eexists. split; [reflexivity|].
  destruct x as [|[]|q]; simpl; try (split; [discriminate | done]);
    try done.
  rewrite <- Hq, (Qle_alt q c).
  destruct (q ?= c)%Q; split; congruence.
Qed.

Lemma ne_zero_false v : Py.ne_zero v = false <-> exactly_zero v.
Proof.
  unfold Py.ne_zero, exactly_zero. split.
  - destruct (number_of v) as [[|[]|q]|]; try discriminate. simpl.
    destruct (q ?= 0)%Q eqn:E; try discriminate.
    intros _. exists q. split; [done|]. by apply Qeq_alt.
  - intros (q & -> & Hq). simpl. apply Qeq_alt in Hq. by rewrite Hq.
Qed.

(** ** The ratios *)

Lemma iscr_body_no_KeyError (p b : value) :
  (numerator ← Py.add p (JInt 1);
   denominator ← Py.add b (JInt 1);
   Py.truediv numerator denominator) <> Raise KeyError.
Proof.
  destruct (Py.add p (JInt 1)) as [n|e] eqn:En; simpl.
  2: { apply add_exn in En as [-> | ->]; discriminate. }
  destruct (Py.add b (JInt 1)) as [d|e] eqn:Ed; simpl.
  2: { apply add_exn in Ed as [-> | ->]; discriminate. }
  intros H. apply truediv_exn in H as [H | [H | H]]; discriminate.
Qed.

(** [iscr] for an entry that is there. *)
Lemma iscr_entry data i e :
  entry_at data i = Some e ->
  line_items_ok e = true ->
  iscr data i =
    match section e "pnl", section e "bs" with
    | Some pnl, Some bs =>
        numerator ← Py.add (field pnl pbitda_key) (JInt 1);
        denominator ← Py.add (field bs "interestExpenses") (JInt 1);
        Py.truediv numerator denominator
    | _, _ => Ok (JFloat f_zero)
    end.
Proof.
  intros He Hok. unfold iscr.
  rewrite !(section_of_ok _ _ _ _ He Hok) by auto.
  destruct (section e "pnl") as [pnl|]; [|done].
  destruct (section e "bs") as [bs|]; [|done].
  simpl. apply try_except_id, iscr_body_no_KeyError.
Qed.

(** C5.  For an entry that is there, [iscr] is [(pbitda + 1) /
    (interestExpenses + 1)] in Python's arithmetic, a field that is absent
    counting as 0; it is 0.0 when the ["pnl"] or the ["bs"] section is
    missing.  The equation covers the outcome of the division as well:
    where the division raises, so does [iscr]. *)
Theorem iscr_formula data i e :
  entry_at data i = Some e ->
  line_items_ok e = true ->
  (section e "pnl" = None \/ section e "bs" = None ->
   iscr data i = Ok (JFloat f_zero))
  /\ (forall pnl bs,
        section e "pnl" = Some pnl -> section e "bs" = Some bs ->
        iscr data i =
          (numerator ← Py.add (field pnl pbitda_key) (JInt 1);
           denominator ← Py.add (field bs "interestExpenses") (JInt 1);
           Py.truediv numerator denominator)).
Proof.
  intros He Hok. rewrite (iscr_entry data i e He Hok). split.
  - intros [-> | ->]; [done|]. by destruct (section e "pnl").
  - by intros pnl bs -> ->.
Qed.

Lemma iscr_formula_witness :
  iscr (filing (JInt 100) (JInt 3) (JInt 10) (JInt 15) (JInt 1)) 0
  = Ok (JFloat (float_of_decimal 2 1))
  /\ iscr (filing (JInt 100) (JInt 0) (JInt 10) (JInt 15) (JInt 1)) 0
     = Ok (JFloat (float_of_decimal 1 2))
  /\ iscr (record [JDict {[ "lineItems" := JDict ∅ ]}]) 0
     = Ok (JFloat f_zero).
Proof.
  split; [|split].
  - rewrite (proj2 (iscr_formula
               (filing (JInt 100) (JInt 3) (JInt 10) (JInt 15) (JInt 1)) 0
               _ eq_refl eq_refl) _ _ eq_refl eq_refl).
    vm_compute. reflexivity.
  - rewrite (proj2 (iscr_formula
               (filing (JInt 100) (JInt 0) (JInt 10) (JInt 15) (JInt 1)) 0
               _ eq_refl eq_refl) _ _ eq_refl eq_refl).
    vm_compute. reflexivity.
  - refine (proj1 (iscr_formula
               (record [JDict {[ "lineItems" := JDict ∅ ]}]) 0
               {[ "lineItems" := JDict ∅ ]} eq_refl _) _).
    + vm_compute. reflexivity.
    + left. vm_compute. reflexivity.
Defined.

(** C6, as stated: the two borrowings are added before the revenue is
    looked at, so on this well-formed record, whose revenue is exactly 0,
    the addition of an integer too large for a float to a float raises
    [OverflowError] and no 0.0 is returned. *)
Lemma total_borrowing_overflow_at_zero_revenue :
  wf_record
    (filing (JInt 0) (JInt 3) (JInt (10 ^ 400))
            (JFloat (float_of_decimal 1 2)) (JInt 1)) = true
  /\ total_revenue
       (filing (JInt 0) (JInt 3) (JInt (10 ^ 400))
               (JFloat (float_of_decimal 1 2)) (JInt 1)) 0 = Ok (JInt 0)
  /\ exactly_zero (JInt 0)
  /\ total_borrowing
       (filing (JInt 0) (JInt 3) (JInt (10 ^ 400))
               (JFloat (float_of_decimal 1 2)) (JInt 1)) 0
     = Raise OverflowError.
Proof.
  split; [vm_compute; reflexivity|].
  split; [vm_compute; reflexivity|].
  split; [exists 0%Q; split; reflexivity|].
  vm_compute. reflexivity.
Qed.

(** C6, amended.  For an entry that is there, [total_borrowing] is 0.0
    when the ["bs"] section is missing.  Otherwise it first adds
    [longTermBorrowings] and [shortTermBorrowings] (0 where absent): when
    the addition raises, [total_borrowing] raises the same exception,
    whatever the revenue; when it returns [total], with [rev] the
    [total_revenue] of the same entry, [total_borrowing] is 0.0 when [rev]
    is exactly 0 and [total / rev] when it is not. *)
Theorem total_borrowing_formula data i e :
  entry_at data i = Some e ->
  line_items_ok e = true ->
  (section e "bs" = None -> total_borrowing data i = Ok (JFloat f_zero))
  /\ (forall bs total,
        section e "bs" = Some bs ->
        Py.add (field bs "longTermBorrowings")
               (field bs "shortTermBorrowings") = Ok total ->
        exists rev,
          total_revenue data i = Ok rev
          /\ (exactly_zero rev ->
              total_borrowing data i = Ok (JFloat f_zero))
          /\ (~ exactly_zero rev ->
              total_borrowing data i = Py.truediv total rev))
  /\ (forall bs x,
        section e "bs" = Some bs ->
        Py.add (field bs "longTermBorrowings")
               (field bs "shortTermBorrowings") = Raise x ->
        total_borrowing data i = Raise x).
Proof.
  intros He Hok. unfold total_borrowing.
  rewrite (section_of_ok _ _ _ _ He Hok) by auto. split; [|split].
  - by intros ->.
  - intros bs total -> Hsum. simpl. unfold field in Hsum. rewrite Hsum.
    rewrite (total_revenue_entry _ _ _ He Hok). simpl.
    eexists. split; [reflexivity|]. split.
    + intros Hz. apply ne_zero_false in Hz. by rewrite Hz.
    + intros Hnz. destruct (Py.ne_zero _) eqn:E.
      * apply try_except_id. intros H.
        apply truediv_exn in H as [H | [H | H]]; discriminate.
      * by apply ne_zero_false in E.
  - intros bs x -> Hsum. simpl. unfold field in Hsum. rewrite Hsum.
    apply add_exn in Hsum as [-> | ->]; reflexivity.
Qed.

Lemma total_borrowing_formula_witness :
  total_borrowing (filing (JInt 100) (JInt 3) (JInt 10) (JInt 15) (JInt 1)) 0
  = Ok (JFloat f_quarter)
  /\ total_borrowing (filing (JInt 0) (JInt 3) (JInt 10) (JInt 15) (JInt 1)) 0
     = Ok (JFloat f_zero)
  /\ total_borrowing (record [JDict {[ "lineItems" := JDict ∅ ]}]) 0
     = Ok (JFloat f_zero)
  /\ total_borrowing
       (filing (JInt 100) (JInt 3) (JInt (10 ^ 400))
               (JFloat (float_of_decimal 1 2)) (JInt 1)) 0
     = Raise OverflowError.
Proof.
  split; [|split; [|split]].
  - destruct (proj1 (proj2 (total_borrowing_formula
               (filing (JInt 100) (JInt 3) (JInt 10) (JInt 15) (JInt 1)) 0
               _ eq_refl eq_refl)) _ (JInt 25) eq_refl eq_refl)
      as (rev & Hrev & _ & Hnz).
    vm_compute in Hrev. injection Hrev as <-. rewrite Hnz.
    + vm_compute. reflexivity.
    + intros (q & Hq & Hz). vm_compute in Hq. injection Hq as <-.
      vm_compute in Hz. discriminate.
  - destruct (proj1 (proj2 (total_borrowing_formula
               (filing (JInt 0) (JInt 3) (JInt 10) (JInt 15) (JInt 1)) 0
               _ eq_refl eq_refl)) _ (JInt 25) eq_refl eq_refl)
      as (rev & Hrev & Hz & _).
    vm_compute in Hrev. injection Hrev as <-. apply Hz.
    exists 0%Q. split; reflexivity.
  - refine (proj1 (total_borrowing_formula
               (record [JDict {[ "lineItems" := JDict ∅ ]}]) 0
               {[ "lineItems" := JDict ∅ ]} eq_refl _) _).
    + vm_compute. reflexivity.
    + vm_compute. reflexivity.
  - refine (proj2 (proj2 (total_borrowing_formula
               (filing (JInt 100) (JInt 3) (JInt (10 ^ 400))
                       (JFloat (float_of_decimal 1 2)) (JInt 1)) 0
               _ eq_refl eq_refl)) _ OverflowError eq_refl _).
    vm_compute. reflexivity.
Defined.

Lemma truediv_by_one n : Py.truediv n (JInt 1) <> Raise ZeroDivisionError.
Proof.
  unfold Py.truediv.
  destruct (as_int n) as [x|] eqn:En; simpl.
  - destruct (SFdiv _ _ _ _); discriminate.
  - destruct (as_float n) as [[x|e]|] eqn:Ef; simpl; try discriminate.
    intros [= ->]. by pose proof (as_float_exn _ _ _ Ef eq_refl).
Qed.

Lemma truediv_by_zero n :
  is_number n = true -> Py.truediv n (JInt 0) = Raise ZeroDivisionError.
Proof. by destruct n. Qed.

Lemma add_one_number p :
  is_number p = true ->
  exists n, Py.add p (JInt 1) = Ok n /\ is_number n = true.
Proof. destruct p; try discriminate; intros _; by eexists. Qed.

(** C7.  [iscr] divides by zero on a well-formed record: when the selected
    entry has both sections and [interestExpenses] is -1, the denominator
    is 0, the division raises [ZeroDivisionError], and the handler for
    [KeyError] lets it through, up to the orchestrator.  With
    [interestExpenses] 0 or absent the denominator is 1 and no
    [ZeroDivisionError] occurs. *)
Theorem iscr_zero_division data i e pnl bs :
  entry_at data i = Some e ->
  line_items_ok e = true ->
  section e "pnl" = Some pnl ->
  section e "bs" = Some bs ->
  (bs !! "interestExpenses" = Some (JInt (-1)) ->
   is_number (field pnl pbitda_key) = true ->
   iscr data i = Raise ZeroDivisionError
   /\ iscr_flag data i = Raise ZeroDivisionError)
  /\ (bs !! "interestExpenses" = None
      \/ bs !! "interestExpenses" = Some (JInt 0) ->
      iscr data i <> Raise ZeroDivisionError).
Proof.
  intros He Hok Hp Hb.
  pose proof (iscr_entry data i e He Hok) as Heq. rewrite Hp, Hb in Heq.
  split.
  - intros Hi Hn. assert (iscr data i = Raise ZeroDivisionError) as H.
    { rewrite Heq.
      assert (Py.add (field bs "interestExpenses") (JInt 1) = Ok (JInt 0))
        as -> by (unfold field; by rewrite Hi).
      destruct (add_one_number _ Hn) as (n & -> & Hnum). simpl.
      by apply truediv_by_zero. }
    split; [done|]. unfold iscr_flag. by rewrite H.
  - intros Hi. rewrite Heq.
    assert (Py.add (field bs "interestExpenses") (JInt 1) = Ok (JInt 1))
      as -> by (unfold field; by destruct Hi as [-> | ->]).
    destruct (Py.add (field pnl pbitda_key) (JInt 1)) as [n|x] eqn:En; simpl.
    + apply truediv_by_one.
    + apply add_exn in En as [-> | ->]; discriminate.
Qed.

Lemma iscr_zero_division_witness :
  wf_record (filing (JInt 100) (JInt 3) (JInt 10) (JInt 15) (JInt (-1)))
  = true
  /\ latest_financial_index
       (filing (JInt 100) (JInt 3) (JInt 10) (JInt 15) (JInt (-1))) = Ok 0
  /\ iscr (filing (JInt 100) (JInt 3) (JInt 10) (JInt 15) (JInt (-1))) 0
     = Raise ZeroDivisionError
  /\ probe_model_5l_profit
       (filing (JInt 100) (JInt 3) (JInt 10) (JInt 15) (JInt (-1)))
     = Raise ZeroDivisionError
  /\ iscr (filing (JInt 100) (JInt 3) (JInt 10) (JInt 15) (JInt 0)) 0
     <> Raise ZeroDivisionError.
Proof.
  split; [vm_compute; reflexivity|].
  split; [vm_compute; reflexivity|].
  split; [|split].
  - refine (proj1 (proj1 (iscr_zero_division
               (filing (JInt 100) (JInt 3) (JInt 10) (JInt 15) (JInt (-1)))
               0 _ _ _ eq_refl eq_refl eq_refl eq_refl) _ _)).
    + vm_compute. reflexivity.
    + vm_compute. reflexivity.
  - vm_compute. reflexivity.
  - refine (proj2 (iscr_zero_division
               (filing (JInt 100) (JInt 3) (JInt 10) (JInt 15) (JInt 0))
               0 _ _ _ eq_refl eq_refl eq_refl eq_refl) _).
    right. vm_compute. reflexivity.
Defined.

(** ** The thresholds *)

Lemma iscr_float data i v : iscr data i = Ok v -> exists f, v = JFloat f.
Proof.
  unfold iscr, try_except.
  destruct (_ ≫= _) as [a|e] eqn:E.
  - intros [= <-]. do 6 inv_bind E. by apply truediv_float in E.
  - destruct (decide (e = KeyError)); [intros [= <-]; eauto | discriminate].
Qed.

Lemma total_borrowing_float data i v :
  total_borrowing data i = Ok v -> exists f, v = JFloat f.
Proof.
  unfold total_borrowing, try_except.
  destruct (_ ≫= _) as [a|e] eqn:E.
  - intros [= <-]. do 5 inv_bind E.
    destruct (Py.ne_zero _); [by apply truediv_float in E|].
    injection E as <-. eauto.
  - destruct (decide (e = KeyError)); [intros [= <-]; eauto | discriminate].
Qed.

Lemma flag_choice (b : bool) (yes no : Z) :
  yes <> no ->
  (Ok (if b then yes else no) = Ok yes <-> b = true)
  /\ (Ok (if b then yes else no) = Ok no <-> b <> true).
Proof. intros Hne. destruct b; split; split; congruence. Qed.

(** C8.  [total_revenue_5cr_flag] is GREEN exactly when the total revenue
    of the entry is at least 50,000,000, the bound included, and RED
    otherwise. *)
Theorem total_revenue_5cr_flag_threshold data i v x :
  total_revenue data i = Ok v ->
  number_of v = Some x ->
  (total_revenue_5cr_flag data i = Ok FLAGS.GREEN <-> at_least x 50000000)
  /\ (total_revenue_5cr_flag data i = Ok FLAGS.RED
      <-> ~ at_least x 50000000).
Proof.
  intros Hv Hx. unfold total_revenue_5cr_flag. rewrite Hv. simpl.
  destruct (ge_int v x 50000000 Hx) as (b & -> & Hb). simpl.
  change (inject_Z 50000000) with 50000000%Q in Hb.
  rewrite <- Hb. by apply flag_choice.
Qed.

Lemma total_revenue_5cr_flag_threshold_witness :
  total_revenue_5cr_flag
    (filing (JInt 50000000) (JInt 3) (JInt 10) (JInt 15) (JInt 1)) 0
  = Ok FLAGS.GREEN
  /\ total_revenue_5cr_flag
       (filing (JFloat f_49999999_99) (JInt 3) (JInt 10) (JInt 15) (JInt 1)) 0
     = Ok FLAGS.RED.
Proof.
  split.
  - refine (proj2 (proj1 (total_revenue_5cr_flag_threshold
              (filing (JInt 50000000) (JInt 3) (JInt 10) (JInt 15) (JInt 1))
              0 (JInt 50000000) _ _ eq_refl)) _).
    + vm_compute. reflexivity.
    + vm_compute. discriminate.
  - refine (proj2 (proj2 (total_revenue_5cr_flag_threshold
              (filing (JFloat f_49999999_99) (JInt 3) (JInt 10) (JInt 15)
                      (JInt 1))
              0 (JFloat f_49999999_99) _ _ eq_refl)) _).
    + vm_compute. reflexivity.
    + intros H. vm_compute in H. by apply H.
Defined.

(** C9.  [iscr_flag] is GREEN exactly when the value of [iscr] is at least
    2, the bound included, and RED otherwise; it is never AMBER. *)
Theorem iscr_flag_threshold data i v :
  iscr data i = Ok v ->
  exists f,
    v = JFloat f
    /\ (iscr_flag data i = Ok FLAGS.GREEN <-> at_least (float_value f) 2)
    /\ (iscr_flag data i = Ok FLAGS.RED <-> ~ at_least (float_value f) 2)
    /\ iscr_flag data i <> Ok FLAGS.AMBER.
Proof.
  intros Hv. destruct (iscr_float _ _ _ Hv) as [f ->]. exists f.
  split; [done|]. apply and_assoc. split.
  - unfold iscr_flag. rewrite Hv, bind_ok.
    destruct (ge_int (JFloat f) _ 2 eq_refl) as (b & -> & Hb).
    rewrite bind_ok.
    change (inject_Z 2) with 2%Q in Hb. rewrite <- Hb. by apply flag_choice.
  - intros H. by apply iscr_flag_range in H as [H | H].
Qed.

Lemma iscr_flag_threshold_witness :
  iscr_flag (filing (JInt 100) (JInt 3) (JInt 10) (JInt 15) (JInt 1)) 0
  = Ok FLAGS.GREEN
  /\ iscr_flag (filing (JInt 100) (JInt 0) (JInt 10) (JInt 15) (JInt 1)) 0
     = Ok FLAGS.RED.
Proof.
  split.
  - destruct (iscr_flag_threshold
                (filing (JInt 100) (JInt 3) (JInt 10) (JInt 15) (JInt 1)) 0
                (JFloat (float_of_decimal 2 1)))
      as (f & Hf & Hg & _); [vm_compute; reflexivity|].
    injection Hf as <-. apply Hg. vm_compute. discriminate.
  - destruct (iscr_flag_threshold
                (filing (JInt 100) (JInt 0) (JInt 10) (JInt 15) (JInt 1)) 0
                (JFloat (float_of_decimal 1 2)))
      as (f & Hf & _ & Hr & _); [vm_compute; reflexivity|].
    injection Hf as <-. apply Hr. intros H. vm_compute in H. by apply H.
Defined.

(** C10.  [borrowing_to_revenue_flag] is GREEN exactly when the value of
    [total_borrowing] is at most 0.25, the bound included, and AMBER
    otherwise; it is never RED. *)
Theorem borrowing_to_revenue_flag_threshold data i v :
  total_borrowing data i = Ok v ->
  exists f,
    v = JFloat f
    /\ (borrowing_to_revenue_flag data i = Ok FLAGS.GREEN
        <-> at_most (float_value f) (1 # 4))
    /\ (borrowing_to_revenue_flag data i = Ok FLAGS.AMBER
        <-> ~ at_most (float_value f) (1 # 4))
    /\ borrowing_to_revenue_flag data i <> Ok FLAGS.RED.
Proof.
  intros Hv. destruct (total_borrowing_float _ _ _ Hv) as [f ->]. exists f.
  split; [done|]. apply and_assoc. split.
  - unfold borrowing_to_revenue_flag. rewrite Hv, bind_ok.
    destruct (le_quarter (JFloat f) _ eq_refl) as (b & -> & Hb).
    rewrite bind_ok.
    rewrite <- Hb. by apply flag_choice.
  - intros H. by apply borrowing_to_revenue_flag_range in H as [H | H].
Qed.

Lemma borrowing_to_revenue_flag_threshold_witness :
  borrowing_to_revenue_flag
    (filing (JInt 100) (JInt 3) (JInt 10) (JInt 15) (JInt 1)) 0
  = Ok FLAGS.GREEN
  /\ borrowing_to_revenue_flag
       (filing (JInt 99) (JInt 3) (JInt 10) (JInt 15) (JInt 1)) 0
     = Ok FLAGS.AMBER.
Proof.
  split.
  - destruct (borrowing_to_revenue_flag_threshold
                (filing (JInt 100) (JInt 3) (JInt 10) (JInt 15) (JInt 1)) 0
                (JFloat f_quarter))
      as (f & Hf & Hg & _); [vm_compute; reflexivity|].
    injection Hf as <-. apply Hg. vm_compute. discriminate.
  - destruct (borrowing_to_revenue_flag_threshold
                (filing (JInt 99) (JInt 3) (JInt 10) (JInt 15) (JInt 1)) 0
                (JFloat (float_of_decimal 25 99)))
      as (f & Hf & _ & Ha & _); [vm_compute; reflexivity|].
    injection Hf as <-. apply Ha. intros H. vm_compute in H. by apply H.
Defined.

(** ** Well-formed records with an entry

    On a well-formed record whose ["financials"] is not empty the
    selector finds an entry and every lookup succeeds or is defaulted;
    what is left to go wrong is the arithmetic. *)

Lemma scan_in_range l : forall k i,
  scan_financials k l = Ok i -> l <> [] ->
  i = 0 \/ k <= i < k + Z.of_nat (length l).
Proof.
  induction l as [|v l IH]; intros k i H Hne; [done|].
  simpl in H. destruct (Py.get v "nature" JNull) as [nature|]; [|done].
  simpl in H. destruct (Py.eq_str nature "STANDALONE").
  - injection H as <-. right. simpl length. lia.
  - destruct l as [|w l']; [injection H as <-; by left|].
    destruct (IH (k + 1) i H) as [-> | Hi]; [done | by left |].
    right. simpl length in *. lia.
Qed.

Lemma wf_entry_is_dict l :
  forallb wf_entry l = true -> forallb is_dict l = true.
Proof.
  induction l as [|v l IH]; [done|]. simpl.
  intros [Hv Hl]%andb_prop. rewrite (IH Hl), andb_true_r.
  by destruct v.
Qed.

Lemma wf_record_entry (d : gmap string value) l i :
  wf_record (JDict d) = true ->
  d !! "financials" = Some (JList l) -> l <> [] ->
  latest_financial_index (JDict d) = Ok i ->
  exists e, entry_at (JDict d) i = Some e /\ wf_entry (JDict e) = true.
Proof.
  intros Hwf Hf Hne Hi. simpl in Hwf. rewrite Hf in Hwf. simpl in Hwf.
  unfold latest_financial_index in Hi. simpl in Hi. rewrite Hf in Hi.
  simpl in Hi.
  assert (0 <= i < Z.of_nat (length l)) as Hrange.
  { pose proof (scan_nonneg l 0 i (Z.le_refl 0) Hi).
    destruct (scan_in_range l 0 i Hi Hne) as [-> | ?]; [|lia].
    destruct l; [done | simpl length; lia]. }
  destruct (lookup_lt_is_Some_2 l (Z.to_nat i)) as [v Hv]; [lia|].
  assert (wf_entry v = true) as Hwv.
  { rewrite forallb_forall in Hwf. apply Hwf.
    apply list_elem_of_In, list_elem_of_lookup. eauto. }
  destruct v as [| | | | | |e]; try discriminate. exists e.
  split; [|done]. unfold entry_at. rewrite Hf. unfold list_index.
  destruct (Z.leb_spec 0 i); [|lia]. by rewrite Hv.
Qed.

Lemma wf_entry_line_items (e : gmap string value) :
  wf_entry (JDict e) = true -> line_items_ok e = true.
Proof.
  simpl. intros [_ H]%andb_prop. unfold line_items_ok.
  destruct (e !! "lineItems") as [[| | | | | |li]|]; try done.
  simpl in *. apply andb_prop in H as [Hp Hb].
  apply andb_true_intro. split.
  - by destruct (li !! "pnl") as [[]|].
  - by destruct (li !! "bs") as [[]|].
Qed.

Lemma wf_entry_section (e s : gmap string value) name fields k :
  wf_entry (JDict e) = true ->
  (name = "pnl" /\ fields = pnl_fields)
  \/ (name = "bs" /\ fields = bs_fields) ->
  section e name = Some s -> k ∈ fields ->
  absent_or is_number (s !! k) = true.
Proof.
  simpl. intros [_ H]%andb_prop Hname. unfold section.
  destruct (e !! "lineItems") as [[| | | | | |li]|]; try done.
  simpl in H. apply andb_prop in H as [Hp Hb].
  assert (absent_or (wf_section fields) (li !! name) = true) as Hs
    by (by destruct Hname as [[-> ->] | [-> ->]]).
  destruct (li !! name) as [[| | | | | |s']|]; try done.
  intros [= ->] Hk. simpl in Hs. rewrite forallb_forall in Hs.
  by apply Hs, list_elem_of_In.
Qed.

Lemma field_number (s : gmap string value) k dflt :
  absent_or is_number (s !! k) = true -> is_number dflt = true ->
  is_number (default dflt (s !! k)) = true.
Proof. by destruct (s !! k). Qed.

Lemma number_of_number v : is_number v = true -> is_Some (number_of v).
Proof. destruct v; try discriminate; by eexists. Qed.

Lemma add_numbers a b :
  is_number a = true -> is_number b = true ->
  match Py.add a b with
  | Ok n => is_number n = true
  | Raise e => e = OverflowError
  end.
Proof.
  intros Ha Hb.
  destruct a; try discriminate; destruct b; try discriminate; try done.
  all: unfold Py.add; simpl.
  - by destruct (float_of_int z) eqn:E; [|apply float_of_int_exn in E].
  - by destruct (float_of_int z) eqn:E; [|apply float_of_int_exn in E].
Qed.

Lemma truediv_numbers a b :
  is_number a = true -> is_number b = true ->
  arithmetic_only (Py.truediv a b).
Proof.
  intros Ha Hb. destruct (Py.truediv a b) as [v|e] eqn:E; [done|].
  apply truediv_exn in E as Hcases.
  destruct Hcases as [-> | [-> | ->]]; [|by left | by right].
  exfalso. destruct a; try discriminate; destruct b; try discriminate;
    unfold Py.truediv in E; simpl in E.
  - destruct (decide (z0 = 0)); [done|]. by destruct (SFdiv _ _ _ _).
  - destruct (float_of_int z) eqn:Ez; simpl in E;
      [by destruct (is_zero _) | by apply float_of_int_exn in Ez as ->].
  - destruct (float_of_int z) eqn:Ez; simpl in E;
      [by destruct (is_zero _) | by apply float_of_int_exn in Ez as ->].
  - by destruct (is_zero _).
Qed.

Lemma revenue_number data i e :
  entry_at data i = Some e -> wf_entry (JDict e) = true ->
  exists v, total_revenue data i = Ok v /\ is_number v = true.
Proof.
  intros He Hwf. pose proof (wf_entry_line_items e Hwf) as Hok.
  rewrite (total_revenue_entry _ _ _ He Hok). eexists. split; [done|].
  destruct (section e "pnl") as [pnl|] eqn:Ep; [|done].
  apply field_number; [|done].
  apply (wf_entry_section e pnl "pnl" pnl_fields); auto.
  unfold pnl_fields. set_solver.
Qed.

Lemma total_revenue_5cr_flag_wf data i e :
  entry_at data i = Some e -> wf_entry (JDict e) = true ->
  returns (total_revenue_5cr_flag data i).
Proof.
  intros He Hwf. destruct (revenue_number _ _ _ He Hwf) as (v & Hv & Hn).
  destruct (number_of_number v Hn) as [x Hx].
  destruct (ge_int v x 50000000 Hx) as (b & Hb & _).
  unfold total_revenue_5cr_flag. rewrite Hv, bind_ok, Hb. by eexists.
Qed.

Lemma total_borrowing_wf data i e :
  entry_at data i = Some e -> wf_entry (JDict e) = true ->
  arithmetic_only (total_borrowing data i).
Proof.
  intros He Hwf. pose proof (wf_entry_line_items e Hwf) as Hok.
  destruct (revenue_number _ _ _ He Hwf) as (rev & Hrev & Hn).
  unfold total_borrowing.
  rewrite (section_of_ok _ _ _ _ He Hok) by auto.
  destruct (section e "bs") as [bs|] eqn:Eb; [|done]. simpl.
  assert (forall k, k ∈ bs_fields -> is_number (field bs k) = true) as Hf.
  { intros k Hk. apply field_number; [|done].
    apply (wf_entry_section e bs "bs" bs_fields); auto. }
  pose proof (add_numbers (field bs "longTermBorrowings")
                (field bs "shortTermBorrowings")) as Hsum.
  assert ("longTermBorrowings" ∈ bs_fields) as Hl by repeat constructor.
  assert ("shortTermBorrowings" ∈ bs_fields) as Hs by repeat constructor.
  specialize (Hsum (Hf _ Hl) (Hf _ Hs)).
  unfold field in Hsum.
  destruct (Py.add _ _) as [total|x]; simpl.
  2: { subst x. by right. }
  rewrite Hrev. simpl. destruct (Py.ne_zero rev); [|done].
  pose proof (truediv_numbers total rev Hsum Hn) as Hdiv.
  destruct (Py.truediv total rev) as [v|x]; [done|].
  destruct Hdiv as [-> | ->]; [by left | by right].
Qed.

Lemma iscr_wf data i e :
  entry_at data i = Some e -> wf_entry (JDict e) = true ->
  arithmetic_only (iscr data i).
Proof.
  intros He Hwf. pose proof (wf_entry_line_items e Hwf) as Hok.
  rewrite (iscr_entry data i e He Hok).
  destruct (section e "pnl") as [pnl|] eqn:Ep; [|done].
  destruct (section e "bs") as [bs|] eqn:Eb; [|done].
  destruct (add_one_number (field pnl pbitda_key)) as (n & -> & Hn).
  { apply field_number; [|done].
    apply (wf_entry_section e pnl "pnl" pnl_fields); auto.
    unfold pnl_fields. set_solver. }
  destruct (add_one_number (field bs "interestExpenses")) as (m & -> & Hm).
  { apply field_number; [|done].
    apply (wf_entry_section e bs "bs" bs_fields); auto.
    unfold bs_fields. set_solver. }
  simpl. by apply truediv_numbers.
Qed.

Lemma flag_of_float {A} (r : result value) (test : value -> result bool)
    (k : bool -> result A) :
  arithmetic_only r ->
  (forall v, r = Ok v -> exists f, v = JFloat f) ->
  (forall f, returns (test (JFloat f))) ->
  (forall b, returns (k b)) ->
  arithmetic_only (v ← r; b ← test v; k b).
Proof.
  intros Hr Hfloat Htest Hk. destruct r as [v|x]; [|done].
  destruct (Hfloat v eq_refl) as [f ->]. rewrite bind_ok.
  destruct (Htest f) as [b ->]. rewrite bind_ok.
  by destruct (Hk b) as [a ->].
Qed.

(** On a well-formed record with at least one entry the orchestrator
    returns its flags or stops on the arithmetic ([ZeroDivisionError],
    [OverflowError]); no lookup fails. *)
Lemma probe_model_5l_profit_wf (d : gmap string value) l :
  wf_record (JDict d) = true ->
  d !! "financials" = Some (JList l) -> l <> [] ->
  arithmetic_only (probe_model_5l_profit (JDict d)).
Proof.
  intros Hwf Hf Hne.
  assert (forallb is_dict l = true) as Hd.
  { apply wf_entry_is_dict. simpl in Hwf. by rewrite Hf in Hwf. }
  destruct (latest_financial_index_returns d l Hf Hd) as [i Hi].
  destruct (wf_record_entry d l i Hwf Hf Hne Hi) as (e & He & Hwe).
  unfold probe_model_5l_profit. rewrite Hi, bind_ok.
  destruct (total_revenue_5cr_flag_wf _ _ _ He Hwe) as [a ->].
  rewrite bind_ok.
  assert (arithmetic_only (borrowing_to_revenue_flag (JDict d) i)) as Hb.
  { apply flag_of_float.
    - by apply (total_borrowing_wf _ _ e).
    - apply total_borrowing_float.
    - intros f. destruct (le_quarter (JFloat f) _ eq_refl) as (b & -> & _).
      by eexists.
    - intros b. by eexists. }
  destruct (borrowing_to_revenue_flag (JDict d) i) as [b|x]; [|done].
  rewrite bind_ok.
  assert (arithmetic_only (iscr_flag (JDict d) i)) as Hc.
  { apply flag_of_float.
    - by apply (iscr_wf _ _ e).
    - apply iscr_float.
    - intros f. destruct (ge_int (JFloat f) _ 2 eq_refl) as (b' & -> & _).
      by eexists.
    - intros b'. by eexists. }
  by destruct (iscr_flag (JDict d) i) as [c|x].
Qed.

(** ** Rounding

    The integer conversion and the integer division round through
    [binary_round_aux]; what is needed of it is that a non-zero integer
    never becomes 0.0 and that the sign of a quotient is the sign of the
    fraction. *)

Lemma shr_1_div2 mrs : 0 <= shr_m mrs -> shr_m (shr_1 mrs) = shr_m mrs / 2.
Proof.
  destruct mrs as [m r s]. simpl. intros Hm. rewrite <- Z.div2_div.
  by destruct m as [|[p|p|]|p].
Qed.

Lemma iter_shr_1 p : forall mrs,
  0 <= shr_m mrs ->
  shr_m (SpecFloat.iter_pos shr_1 p mrs) = shr_m mrs / 2 ^ Z.pos p.
Proof.
  assert (forall a b, 0 <= a -> 0 < b -> 0 <= a / b) as Hdiv
    by (intros; by apply Z.div_pos).
  induction p as [p IH|p IH|]; intros mrs Hm; simpl SpecFloat.iter_pos.
  - assert (0 <= shr_m (shr_1 mrs)) as H1
      by (rewrite shr_1_div2 by done; apply Hdiv; lia).
    assert (0 <= shr_m (SpecFloat.iter_pos shr_1 p (shr_1 mrs))) as H2
      by (rewrite IH by done; apply Hdiv; [done | by apply Z.pow_pos_nonneg]).
    rewrite IH, IH, shr_1_div2 by done.
    rewrite !Z.div_div by (try apply Z.pow_pos_nonneg; lia).
    f_equal. replace (Z.pos p~1) with (1 + Z.pos p + Z.pos p) by lia.
    rewrite !Z.pow_add_r, Z.pow_1_r by lia. ring.
  - assert (0 <= shr_m (SpecFloat.iter_pos shr_1 p mrs)) as H2
      by (rewrite IH by done; apply Hdiv; [done | by apply Z.pow_pos_nonneg]).
    rewrite IH, IH by done.
    rewrite !Z.div_div by (try apply Z.pow_pos_nonneg; lia).
    f_equal. replace (Z.pos p~0) with (Z.pos p + Z.pos p) by lia.
    rewrite Z.pow_add_r by lia. ring.
  - rewrite shr_1_div2 by done. by rewrite Z.pow_1_r.
Qed.

Lemma digits2_size p : digits2_pos p = Pos.size p.
Proof. induction p as [p IH|p IH|]; simpl; by rewrite ?IH. Qed.

Lemma Zdigits2_log2 m : 0 < m -> Zdigits2 m = Z.log2 m + 1.
Proof.
  destruct m as [|p|p]; try lia. intros _. simpl Zdigits2.
  rewrite digits2_size. destruct p; simpl; lia.
Qed.

Lemma shr_record_of_loc_m m l : shr_m (shr_record_of_loc m l) = m.
Proof. by destruct l as [|[]]. Qed.

(** A shift that leaves some digit keeps the mantissa positive and does
    not lower the magnitude [digits + exponent]. *)
Lemma shr_fexp_positive m e l :
  0 < m -> emin prec emax < Zdigits2 m + e ->
  0 < shr_m (fst (shr_fexp prec emax m e l))
  /\ Zdigits2 m + e
     <= Zdigits2 (shr_m (fst (shr_fexp prec emax m e l)))
        + snd (shr_fexp prec emax m e l).
Proof.
  intros Hm He. unfold shr_fexp, shr.
  destruct (fexp prec emax (Zdigits2 m + e) - e) as [|n|n] eqn:En;
    simpl fst; simpl snd; rewrite ?shr_record_of_loc_m; try lia.
  rewrite iter_shr_1 by (rewrite shr_record_of_loc_m; lia).
  rewrite shr_record_of_loc_m.
  assert (Z.pos n < Zdigits2 m) as Hn
    by (unfold fexp, prec in *; lia).
  rewrite Zdigits2_log2 in Hn by done.
  pose proof (Z.log2_spec m Hm) as [Hlow _].
  assert (2 ^ Z.pos n <= 2 ^ Z.log2 m) as Hpow
    by (apply Z.pow_le_mono_r; lia).
  assert (0 < m / 2 ^ Z.pos n) as Hq
    by (apply Z.div_str_pos; split; [by apply Z.pow_pos_nonneg | lia]).
  split; [done|]. rewrite !Zdigits2_log2 by done.
  rewrite <- Z.shiftr_div_pow2, Z.log2_shiftr by lia. lia.
Qed.

Lemma round_nearest_even_ge m l : m <= round_nearest_even m l.
Proof. destruct l as [|[]]; simpl; try lia. destruct (Z.even m); lia. Qed.

Lemma Zdigits2_mono m n : 0 < m -> m <= n -> Zdigits2 m <= Zdigits2 n.
Proof.
  intros Hm Hn. rewrite !Zdigits2_log2 by lia.
  pose proof (Z.log2_le_mono m n Hn). lia.
Qed.

(** Rounding a positive mantissa above the underflow threshold never
    gives a zero (nor a NaN). *)
Lemma binary_round_aux_positive sx mx ex lx :
  0 < mx -> emin prec emax < Zdigits2 mx + ex ->
  match binary_round_aux prec emax sx mx ex lx with
  | S754_finite s _ _ | S754_infinity s => s = sx
  | _ => False
  end.
Proof.
  intros Hm He. unfold binary_round_aux.
  destruct (shr_fexp_positive mx ex lx Hm He) as [H1 H1'].
  destruct (shr_fexp prec emax mx ex lx) as [mrs' e']. simpl in H1, H1'.
  set (m1 := round_nearest_even (shr_m mrs') (loc_of_shr_record mrs')).
  assert (shr_m mrs' <= m1) as Hr by apply round_nearest_even_ge.
  assert (0 < m1) as Hm1 by lia.
  assert (emin prec emax < Zdigits2 m1 + e') as He1.
  { pose proof (Zdigits2_mono (shr_m mrs') m1 H1 Hr). lia. }
  destruct (shr_fexp_positive m1 e' loc_Exact Hm1 He1) as [H2 _].
  destruct (shr_fexp prec emax m1 e' loc_Exact) as [mrs'' e'']. simpl in H2.
  destruct (shr_m mrs'') as [|m2|m2]; try lia.
  by destruct (e'' <=? emax - prec).
Qed.

Lemma float_of_int_nonzero z f :
  z <> 0 -> float_of_int z = Ok f -> is_zero f = false.
Proof.
  intros Hz. unfold float_of_int, binary_normalize.
  assert (forall s m,
    match binary_round prec emax s m 0 with
    | S754_finite _ _ _ | S754_infinity _ => True
    | _ => False
    end) as Hround.
  { intros s m. unfold binary_round.
    set (ex' := fexp prec emax (Z.pos (digits2_pos m) + 0)).
    destruct (shl_align m 0 ex') as [mz ez] eqn:Ea.
    pose proof (binary_round_aux_positive s (Z.pos mz) ez loc_Exact) as H.
    destruct (binary_round_aux _ _ _ _ _ _); try done; apply H; try lia.
    all: unfold shl_align in Ea; simpl Zdigits2.
    all: destruct (ex' - 0) eqn:Ed; injection Ea as <- <-;
      unfold ex', fexp, emin, prec, emax in *; lia. }
  destruct z as [|m|m]; [done| |].
  - specialize (Hround false m).
    destruct (binary_round _ _ _ _ _); try done. by intros [= <-].
  - specialize (Hround true m).
    destruct (binary_round _ _ _ _ _); try done. by intros [= <-].
Qed.

Lemma shr_fexp_nonneg m e l :
  0 <= m -> 0 <= shr_m (fst (shr_fexp prec emax m e l)).
Proof.
  intros Hm. unfold shr_fexp, shr.
  destruct (fexp prec emax (Zdigits2 m + e) - e) as [|n|n];
    simpl fst; rewrite ?shr_record_of_loc_m; try lia.
  rewrite iter_shr_1, shr_record_of_loc_m
    by (rewrite shr_record_of_loc_m; lia).
  apply Z.div_pos; [done | by apply Z.pow_pos_nonneg].
Qed.

(** Rounding keeps the sign: the result is a zero, a finite number or an
    infinity of the sign given, never a NaN. *)
Lemma binary_round_aux_sign sx mx ex lx :
  0 <= mx ->
  match binary_round_aux prec emax sx mx ex lx with
  | S754_zero s | S754_finite s _ _ | S754_infinity s => s = sx
  | S754_nan => False
  end.
Proof.
  intros Hm. unfold binary_round_aux.
  pose proof (shr_fexp_nonneg mx ex lx Hm) as H1.
  destruct (shr_fexp prec emax mx ex lx) as [mrs' e']. simpl in H1.
  set (m1 := round_nearest_even (shr_m mrs') (loc_of_shr_record mrs')).
  assert (0 <= m1) as Hm1
    by (pose proof (round_nearest_even_ge (shr_m mrs')
                      (loc_of_shr_record mrs')); unfold m1; lia).
  pose proof (shr_fexp_nonneg m1 e' loc_Exact Hm1) as H2.
  destruct (shr_fexp prec emax m1 e' loc_Exact) as [mrs'' e'']. simpl in H2.
  destruct (shr_m mrs'') as [|m2|m2]; try lia; [done|].
  by destruct (e'' <=? emax - prec).
Qed.

Lemma SFdiv_int_sign x y :
  y <> 0 ->
  sign_of (SFdiv prec emax (int_operand x) (int_operand y))
  = Some (xorb (x <? 0) (y <? 0)).
Proof.
  intros Hy.
  assert (forall sx mx sy my,
    sign_of (SFdiv prec emax (S754_finite sx mx 0) (S754_finite sy my 0))
    = Some (xorb sx sy)) as Hfin.
  { intros sx mx sy my. unfold SFdiv, SFdiv_core_binary.
    set (e' := Z.min _ _).
    set (m' := match 0 - 0 - e' with
               | 0 => Z.pos mx
               | Z.pos _ => Z.shiftl (Z.pos mx) (0 - 0 - e')
               | Z.neg _ => 0
               end).
    assert (0 <= m') as Hm'.
    { unfold m'. destruct (0 - 0 - e') eqn:E; try lia.
      apply Z.shiftl_nonneg. lia. }
    pose proof (Z.div_pos m' (Z.pos my) Hm' ltac:(lia)) as Hq.
    unfold Z.div in Hq. destruct (Z.div_eucl m' (Z.pos my)) as [q r].
    simpl in Hq.
    pose proof (binary_round_aux_sign (xorb sx sy) q e'
                  (new_location (Z.pos my) r) Hq) as H.
    by destruct (binary_round_aux _ _ _ _ _ _); simpl; subst. }
  destruct x as [|mx|mx], y as [|my|my]; try done; apply Hfin.
Qed.

Lemma float_value_sign f s :
  sign_of f = Some s ->
  if s then at_most (float_value f) 0 else at_least (float_value f) 0.
Proof.
  destruct f as [s'|s'| |s' m e]; simpl; try done; intros [= ->].
  - destruct s; simpl; apply Qle_refl.
  - by destruct s.
  - assert (0 <= 2 ^ e)%Q as Hp by (by apply Qpower_0_le).
    destruct s; simpl.
    + apply Qle_trans with (0 * 2 ^ e)%Q;
        [by apply Qmult_le_compat_r | by rewrite Qmult_0_l].
    + by apply Qmult_le_0_compat.
Qed.

(** The quotient of two integers whose fraction is not positive is a float
    at most 0, unless it is too large for a float. *)
Lemma truediv_int_nonpositive x y :
  y <> 0 -> x * y <= 0 ->
  (exists f, Py.truediv (JInt x) (JInt y) = Ok (JFloat f)
             /\ at_most (float_value f) 0)
  \/ Py.truediv (JInt x) (JInt y) = Raise OverflowError.
Proof.
  intros Hy Hxy. unfold Py.truediv. simpl. rewrite decide_False by done.
  pose proof (SFdiv_int_sign x y Hy) as Hs.
  destruct x as [|mx|mx].
  - left. destruct y as [|my|my]; [done| |]; eexists; (split; [done|]);
      apply Qle_refl.
  - assert (xorb (Z.pos mx <? 0) (y <? 0) = true) as E
      by (destruct y; simpl; lia || done).
    rewrite E in Hs. apply float_value_sign in Hs.
    destruct (SFdiv _ _ _ _) eqn:Ef; eauto.
  - assert (xorb (Z.neg mx <? 0) (y <? 0) = true) as E
      by (destruct y; simpl; lia || done).
    rewrite E in Hs. apply float_value_sign in Hs.
    destruct (SFdiv _ _ _ _) eqn:Ef; eauto.
Qed.

(** ** More on the selector *)

(** X1.  On a ["financials"] list that is not empty, an index returned by
    [latest_financial_index] is a position of the list: the accessors
    called with it find an entry there. *)
Theorem latest_financial_index_in_range (d : gmap string value) l i :
  d !! "financials" = Some (JList l) ->
  l <> [] ->
  latest_financial_index (JDict d) = Ok i ->
  0 <= i < Z.of_nat (length l) /\ is_Some (list_index l i).
Proof.
  intros Hf Hne Hi. unfold latest_financial_index in Hi. simpl in Hi.
  rewrite Hf in Hi. simpl in Hi.
  assert (0 <= i < Z.of_nat (length l)) as Hrange.
  { pose proof (scan_nonneg l 0 i (Z.le_refl 0) Hi).
    destruct (scan_in_range l 0 i Hi Hne) as [-> | ?]; [|lia].
    destruct l; [done | simpl length; lia]. }
  split; [done|]. unfold list_index.
  destruct (Z.leb_spec 0 i); [|lia].
  apply lookup_lt_is_Some_2. lia.
Qed.

Lemma latest_financial_index_in_range_witness :
  0 <= 1 < 3
  /\ is_Some (list_index [entry "CONSOLIDATED" ∅ ∅; entry "STANDALONE" ∅ ∅;
                          entry "STANDALONE" ∅ ∅] 1).
Proof.
  refine (latest_financial_index_in_range
            {[ "financials" :=
                 JList [entry "CONSOLIDATED" ∅ ∅; entry "STANDALONE" ∅ ∅;
                        entry "STANDALONE" ∅ ∅] ]}
            [entry "CONSOLIDATED" ∅ ∅; entry "STANDALONE" ∅ ∅;
             entry "STANDALONE" ∅ ∅] 1 eq_refl _ _).
  - discriminate.
  - vm_compute. reflexivity.
Defined.

Lemma scan_prefix pre : forall k rest,
  forallb is_dict pre = true ->
  (forall y, y ∈ pre -> ~ standalone y) ->
  scan_financials k (pre ++ rest)
  = scan_financials (k + Z.of_nat (length pre)) rest.
Proof.
  induction pre as [|v pre IH]; intros k rest Hd Hno.
  - simpl. f_equal. lia.
  - simpl in Hd. apply andb_prop in Hd as [Hv Hd].
    destruct v as [| | | | | |e]; try discriminate.
    change ((JDict e :: pre) ++ rest)%list
      with (JDict e :: (pre ++ rest))%list.
    rewrite scan_step. destruct (Py.eq_str _ _) eqn:E.
    + apply nature_test in E. destruct (Hno (JDict e)); [left | done].
    + rewrite IH; [|done|intros y Hy; apply Hno; by right].
      f_equal. simpl length. lia.
Qed.

(** X2.  The scan stops at the first STANDALONE entry: what follows it in
    the list is never looked at, whatever it is. *)
Theorem latest_financial_index_stops (d : gmap string value) pre x post :
  d !! "financials" = Some (JList (pre ++ x :: post)) ->
  forallb is_dict pre = true ->
  (forall y, y ∈ pre -> ~ standalone y) ->
  standalone x ->
  latest_financial_index (JDict d) = Ok (Z.of_nat (length pre)).
Proof.
  intros Hf Hd Hno Hx. unfold latest_financial_index. simpl.
  rewrite Hf. simpl. rewrite scan_prefix by done.
  destruct x as [| | | | | |e]; try done. rewrite scan_step.
  apply nature_test in Hx. by rewrite Hx.
Qed.

Lemma latest_financial_index_stops_witness :
  latest_financial_index
    (record [entry "CONSOLIDATED" ∅ ∅; entry "STANDALONE" ∅ ∅;
             JNull; JInt 7]) = Ok 1.
Proof.
  refine (latest_financial_index_stops
            {[ "financials" :=
                 JList [entry "CONSOLIDATED" ∅ ∅; entry "STANDALONE" ∅ ∅;
                        JNull; JInt 7] ]}
            [entry "CONSOLIDATED" ∅ ∅] (entry "STANDALONE" ∅ ∅)
            [JNull; JInt 7] eq_refl eq_refl _ _).
  - intros y Hy. apply list_elem_of_singleton in Hy as ->.
    vm_compute. discriminate.
  - vm_compute. reflexivity.
Defined.

(** X3.  An entry that is not a mapping, met before any STANDALONE entry,
    stops the selector with an [AttributeError]. *)
Theorem latest_financial_index_not_a_mapping
    (d : gmap string value) pre x post :
  d !! "financials" = Some (JList (pre ++ x :: post)) ->
  forallb is_dict pre = true ->
  (forall y, y ∈ pre -> ~ standalone y) ->
  is_dict x = false ->
  latest_financial_index (JDict d) = Raise AttributeError.
Proof.
  intros Hf Hd Hno Hx. unfold latest_financial_index. simpl.
  rewrite Hf. simpl. rewrite scan_prefix by done.
  by destruct x.
Qed.

Lemma latest_financial_index_not_a_mapping_witness :
  latest_financial_index
    (record [entry "CONSOLIDATED" ∅ ∅; JNull; entry "STANDALONE" ∅ ∅])
  = Raise AttributeError.
Proof.
  refine (latest_financial_index_not_a_mapping
            {[ "financials" :=
                 JList [entry "CONSOLIDATED" ∅ ∅; JNull;
                        entry "STANDALONE" ∅ ∅] ]}
            [entry "CONSOLIDATED" ∅ ∅] JNull [entry "STANDALONE" ∅ ∅]
            eq_refl eq_refl _ eq_refl).
  intros y Hy. apply list_elem_of_singleton in Hy as ->.
  vm_compute. discriminate.
Defined.

(** ** Which exceptions *)

Ltac in_list :=
  repeat first [apply list_elem_of_here | apply list_elem_of_further].

Ltac sub_list :=
  let e := fresh "e" in
  let He := fresh "He" in
  intros e He;
  repeat (apply elem_of_cons in He as [-> | He]; [by in_list|]);
  by apply elem_of_nil in He.

Lemma raises_only_weaken {A} (r : result A) small large :
  (forall e, e ∈ small -> e ∈ large) ->
  raises_only small r -> raises_only large r.
Proof. intros Hsub. destruct r; simpl; auto. Qed.

Ltac exn_of lem := eapply raises_only_weaken; [|apply lem]; sub_list.

Lemma raises_only_bind {A B} allowed (m : result A) (f : A -> result B) :
  raises_only allowed m ->
  (forall a, raises_only allowed (f a)) ->
  raises_only allowed (m ≫= f).
Proof. intros Hm Hf. destruct m as [a|e]; [apply Hf | done]. Qed.

Lemma raises_only_try {A} allowed (body handler : result A) :
  raises_only (KeyError :: allowed) body ->
  raises_only allowed handler ->
  raises_only allowed (try_except body KeyError handler).
Proof.
  intros Hb Hh. destruct body as [a|e]; [done|]. simpl in *.
  destruct (decide (e = KeyError)) as [->|Hne]; [done|].
  by apply elem_of_cons in Hb as [-> | Hb].
Qed.

Lemma getitem_str_exn v k :
  raises_only [KeyError; TypeError] (getitem_str v k).
Proof.
  destruct v; simpl; try in_list. destruct (d !! k); simpl; by in_list.
Qed.

Lemma getitem_int_exn v i :
  raises_only [KeyError; IndexError; TypeError] (getitem_int v i).
Proof.
  destruct v; simpl; try in_list.
  - destruct (list_index _ i); simpl; by in_list.
  - destruct (list_index l i); simpl; by in_list.
Qed.

Lemma get_exn v k dflt : raises_only [AttributeError] (Py.get v k dflt).
Proof. destruct v; simpl; by in_list. Qed.

Lemma section_of_exn data i name :
  raises_only [KeyError; IndexError; TypeError] (section_of data i name).
Proof.
  unfold section_of.
  repeat (apply raises_only_bind; [|intros ?]);
    first [ eapply raises_only_weaken; [|apply getitem_str_exn]; sub_list
          | apply getitem_int_exn ].
Qed.

Lemma add_raises a b : raises_only [TypeError; OverflowError] (Py.add a b).
Proof.
  destruct (Py.add a b) as [v|e] eqn:E; [done|]. simpl.
  apply add_exn in E as [-> | ->]; in_list.
Qed.

Lemma truediv_raises a b :
  raises_only [TypeError; ZeroDivisionError; OverflowError] (Py.truediv a b).
Proof.
  destruct (Py.truediv a b) as [v|e] eqn:E; [done|]. simpl.
  apply truediv_exn in E as [-> | [-> | ->]]; in_list.
Qed.

Lemma ge_raises a c : raises_only [TypeError] (Py.ge a c).
Proof.
  unfold Py.ge. destruct (number_of a), (number_of c); simpl; by in_list.
Qed.

Lemma le_raises a c : raises_only [TypeError] (Py.le a c).
Proof.
  unfold Py.le. destruct (number_of a), (number_of c); simpl; by in_list.
Qed.

(** Behind the guard [!= 0] the divisor is not a zero. *)
Lemma ne_zero_divisor b y :
  Py.ne_zero b = true -> as_float b = Some (Ok y) -> is_zero y = false.
Proof.
  destruct b as [|c|z|f| | |]; simpl; try discriminate.
  - intros Hne [= H]. apply (float_of_int_nonzero (Z.b2z c)); [|done].
    intros E. destruct c; [discriminate E | discriminate Hne].
  - intros Hne [= H]. apply (float_of_int_nonzero z); [|done].
    intros ->. discriminate Hne.
  - intros Hne [= <-]. by destruct f.
Qed.

Lemma truediv_guarded a b :
  Py.ne_zero b = true ->
  raises_only [TypeError; OverflowError] (Py.truediv a b).
Proof.
  intros Hne. destruct (Py.truediv a b) as [v|e] eqn:E; [done|]. simpl.
  apply truediv_exn in E as Hcases.
  destruct Hcases as [-> | [-> | ->]]; [in_list | | in_list].
  exfalso. unfold Py.truediv in E.
  destruct (as_int a) as [x|] eqn:Ea, (as_int b) as [y|] eqn:Eb.
  1: { destruct (decide (y = 0)) as [-> | Hy].
       - destruct b as [|[]| | | | |]; try discriminate;
           injection Eb as ->; discriminate Hne.
       - by destruct (SFdiv _ _ _ _). }
  all: destruct (as_float a) as [[x'|ea]|] eqn:Fa; try discriminate;
       destruct (as_float b) as [[y'|eb]|] eqn:Fb; simpl in E;
       try discriminate.
  all: try (rewrite (ne_zero_divisor b y' Hne Fb) in E; discriminate).
  all: injection E as ->;
       first [ by pose proof (as_float_exn _ _ _ Fa eq_refl)
             | by pose proof (as_float_exn _ _ _ Fb eq_refl) ].
Qed.

Lemma total_revenue_exn data i :
  raises_only [IndexError; TypeError] (total_revenue data i).
Proof.
  unfold total_revenue. apply raises_only_try; [|done].
  apply raises_only_bind; [apply section_of_exn | intros pnl].
  eapply raises_only_weaken; [|apply getitem_str_exn]. sub_list.
Qed.

Lemma total_borrowing_exn data i :
  raises_only [IndexError; TypeError; AttributeError; OverflowError]
    (total_borrowing data i).
Proof.
  unfold total_borrowing. apply raises_only_try; [|done].
  apply raises_only_bind; [|intros bs].
  { eapply raises_only_weaken; [|apply section_of_exn]. sub_list. }
  apply raises_only_bind; [|intros long].
  { eapply raises_only_weaken; [|apply get_exn]. sub_list. }
  apply raises_only_bind; [|intros short].
  { eapply raises_only_weaken; [|apply get_exn]. sub_list. }
  apply raises_only_bind; [|intros total].
  { eapply raises_only_weaken; [|apply add_raises]. sub_list. }
  apply raises_only_bind; [|intros rev].
  { eapply raises_only_weaken; [|apply total_revenue_exn]. sub_list. }
  destruct (Py.ne_zero rev) eqn:E; [|done].
  eapply raises_only_weaken; [|by apply truediv_guarded]. sub_list.
Qed.

Lemma iscr_exn data i :
  raises_only [IndexError; TypeError; AttributeError; ZeroDivisionError;
               OverflowError] (iscr data i).
Proof.
  unfold iscr. apply raises_only_try; [|done].
  apply raises_only_bind; [exn_of section_of_exn | intros pnl].
  apply raises_only_bind; [exn_of section_of_exn | intros bs].
  apply raises_only_bind; [exn_of get_exn | intros pbitda].
  apply raises_only_bind; [exn_of get_exn | intros interest].
  apply raises_only_bind; [exn_of add_raises | intros numerator].
  apply raises_only_bind; [exn_of add_raises | intros denominator].
  exn_of truediv_raises.
Qed.

Lemma scan_exn l :
  forall k, raises_only [AttributeError] (scan_financials k l).
Proof.
  induction l as [|v l IH]; intros k; [done|]. simpl.
  apply raises_only_bind; [apply get_exn | intros nature].
  destruct (Py.eq_str nature "STANDALONE"); [done | apply IH].
Qed.

Lemma latest_financial_index_exn data :
  raises_only [TypeError; AttributeError] (latest_financial_index data).
Proof.
  unfold latest_financial_index.
  apply raises_only_bind; [|intros financials].
  { eapply raises_only_weaken; [|apply get_exn]. sub_list. }
  apply raises_only_bind; [|intros items].
  { destruct financials; simpl; by in_list. }
  eapply raises_only_weaken; [|apply scan_exn]. sub_list.
Qed.

Lemma total_revenue_5cr_flag_exn data i :
  raises_only [IndexError; TypeError] (total_revenue_5cr_flag data i).
Proof.
  unfold total_revenue_5cr_flag.
  apply raises_only_bind; [apply total_revenue_exn | intros rev].
  apply raises_only_bind; [exn_of ge_raises | by intros []].
Qed.

Lemma borrowing_to_revenue_flag_exn data i :
  raises_only [IndexError; TypeError; AttributeError; OverflowError]
    (borrowing_to_revenue_flag data i).
Proof.
  unfold borrowing_to_revenue_flag.
  apply raises_only_bind; [apply total_borrowing_exn | intros ratio].
  apply raises_only_bind; [exn_of le_raises | by intros []].
Qed.

Lemma iscr_flag_exn data i :
  raises_only [IndexError; TypeError; AttributeError; ZeroDivisionError;
               OverflowError] (iscr_flag data i).
Proof.
  unfold iscr_flag.
  apply raises_only_bind; [apply iscr_exn | intros ratio].
  apply raises_only_bind; [exn_of ge_raises | by intros []].
Qed.

Lemma probe_model_5l_profit_exn data :
  raises_only [TypeError; AttributeError; IndexError; ZeroDivisionError;
               OverflowError] (probe_model_5l_profit data).
Proof.
  unfold probe_model_5l_profit.
  apply raises_only_bind; [exn_of latest_financial_index_exn | intros i].
  apply raises_only_bind; [exn_of total_revenue_5cr_flag_exn | intros a].
  apply raises_only_bind;
    [exn_of borrowing_to_revenue_flag_exn | intros b].
  apply raises_only_bind; [exn_of iscr_flag_exn | by intros c].
Qed.

Ltac not_in_list :=
  let H := fresh "H" in
  intros H;
  repeat (apply elem_of_cons in H as [H | H]; [discriminate H|]);
  by apply elem_of_nil in H.

Lemma raises_only_not {A} allowed (r : result A) e :
  raises_only allowed r -> e ∉ allowed -> r <> Raise e.
Proof. intros Hr He ->. by apply He. Qed.

(** X4.  Whatever object it is given, the orchestrator never raises
    [KeyError]: every subscript by a key sits under a handler.  What it can
    raise is [TypeError], [AttributeError], [IndexError],
    [ZeroDivisionError] or [OverflowError]. *)
Theorem probe_model_5l_profit_never_KeyError data :
  probe_model_5l_profit data <> Raise KeyError
  /\ raises_only [TypeError; AttributeError; IndexError; ZeroDivisionError;
                  OverflowError] (probe_model_5l_profit data).
Proof.
  split; [|apply probe_model_5l_profit_exn].
  eapply raises_only_not; [apply probe_model_5l_profit_exn | not_in_list].
Qed.

(** X5.  The guard [total_rev != 0] does its work: [total_borrowing] and
    its flag never raise [ZeroDivisionError] (nor [KeyError]), whatever the
    record and the index; a revenue that passes the guard is not turned
    into a zero divisor by the conversion to float. *)
Theorem total_borrowing_never_divides_by_zero data i :
  total_borrowing data i <> Raise ZeroDivisionError
  /\ total_borrowing data i <> Raise KeyError
  /\ borrowing_to_revenue_flag data i <> Raise ZeroDivisionError.
Proof.
  split; [|split].
  - eapply raises_only_not; [apply total_borrowing_exn | not_in_list].
  - eapply raises_only_not; [apply total_borrowing_exn | not_in_list].
  - eapply raises_only_not;
      [apply borrowing_to_revenue_flag_exn | not_in_list].
Qed.

(** ** More on the accessors *)

(** X6.  For an entry that is there, [total_revenue] hands back
    [netRevenue] as it is, without a conversion, whatever kind of value it
    is; it is 0.0 when ["lineItems"], ["pnl"] or the field is missing. *)
Theorem total_revenue_of_entry data i e :
  entry_at data i = Some e ->
  line_items_ok e = true ->
  (forall pnl v,
      section e "pnl" = Some pnl -> pnl !! "netRevenue" = Some v ->
      total_revenue data i = Ok v)
  /\ (forall pnl,
        section e "pnl" = Some pnl -> pnl !! "netRevenue" = None ->
        total_revenue data i = Ok (JFloat f_zero))
  /\ (section e "pnl" = None -> total_revenue data i = Ok (JFloat f_zero)).
Proof.
  intros He Hok. rewrite (total_revenue_entry data i e He Hok).
  split; [|split].
  - by intros pnl v -> ->.
  - by intros pnl -> ->.
  - by intros ->.
Qed.

Lemma total_revenue_of_entry_witness :
  total_revenue
    (filing (JStr "n/a") (JInt 3) (JInt 10) (JInt 15) (JInt 1)) 0
  = Ok (JStr "n/a")
  /\ total_revenue (record [entry "STANDALONE" ∅ ∅]) 0 = Ok (JFloat f_zero)
  /\ total_revenue (record [JDict ∅]) 0 = Ok (JFloat f_zero).
Proof.
  split; [|split].
  - refine (proj1 (total_revenue_of_entry
              (filing (JStr "n/a") (JInt 3) (JInt 10) (JInt 15) (JInt 1)) 0
              _ eq_refl eq_refl) _ _ eq_refl _).
    vm_compute. reflexivity.
  - refine (proj1 (proj2 (total_revenue_of_entry
              (record [entry "STANDALONE" ∅ ∅]) 0 _ eq_refl eq_refl))
              ∅ eq_refl _).
    vm_compute. reflexivity.
  - refine (proj2 (proj2 (total_revenue_of_entry
              (record [JDict ∅]) 0 ∅ eq_refl eq_refl)) _).
    vm_compute. reflexivity.
Defined.

Lemma list_index_None {A} (l : list A) i :
  list_index l i = None
  <-> ~ (- Z.of_nat (length l) <= i < Z.of_nat (length l)).
Proof.
  unfold list_index. destruct (Z.leb_spec 0 i).
  - rewrite lookup_ge_None. lia.
  - destruct (Z.leb_spec (- Z.of_nat (length l)) i).
    + rewrite lookup_ge_None. lia.
    + split; [lia | done].
Qed.

Lemma list_index_from_end {A} (l : list A) i :
  - Z.of_nat (length l) <= i < 0 ->
  list_index l i = list_index l (i + Z.of_nat (length l)).
Proof.
  intros Hi. unfold list_index.
  destruct (Z.leb_spec 0 i); [lia|].
  destruct (Z.leb_spec (- Z.of_nat (length l)) i); [|lia].
  destruct (Z.leb_spec 0 (i + Z.of_nat (length l))); [|lia].
  f_equal. lia.
Qed.

Lemma wf_entry_at (d : gmap string value) l i :
  d !! "financials" = Some (JList l) ->
  forallb wf_entry l = true ->
  - Z.of_nat (length l) <= i < Z.of_nat (length l) ->
  exists e, entry_at (JDict d) i = Some e /\ wf_entry (JDict e) = true.
Proof.
  intros Hf Hwf Hi. unfold entry_at. rewrite Hf.
  destruct (list_index l i) as [v|] eqn:Ev;
    [|by apply list_index_None in Ev].
  assert (v ∈ l) as Hv.
  { unfold list_index in Ev. apply list_elem_of_lookup.
    destruct (0 <=? i); [eauto|]. destruct (_ <=? i); [eauto | done]. }
  rewrite forallb_forall in Hwf.
  apply list_elem_of_In, Hwf in Hv.
  destruct v as [| | | | | |e]; try discriminate. eauto.
Qed.

(** X7.  On a list of well-formed entries [total_revenue] raises
    [IndexError] exactly when the index is outside [-len, len); an index
    below 0 inside that range reads from the end of the list. *)
Theorem total_revenue_index (d : gmap string value) l i :
  d !! "financials" = Some (JList l) ->
  forallb wf_entry l = true ->
  (total_revenue (JDict d) i = Raise IndexError
   <-> ~ (- Z.of_nat (length l) <= i < Z.of_nat (length l)))
  /\ (- Z.of_nat (length l) <= i < 0 ->
      total_revenue (JDict d) i
      = total_revenue (JDict d) (i + Z.of_nat (length l))).
Proof.
  intros Hf Hwf. split.
  - split.
    + intros Hr Hi.
      destruct (wf_entry_at d l i Hf Hwf Hi) as (e & He & Hwe).
      rewrite (total_revenue_entry _ _ _ He (wf_entry_line_items e Hwe))
        in Hr.
      discriminate.
    + intros Hi. apply list_index_None in Hi. unfold total_revenue.
      by rewrite (section_of_no_entry d l i "pnl" Hf Hi).
  - intros Hi.
    destruct (wf_entry_at d l i Hf Hwf) as (e & He & Hwe); [lia|].
    assert (entry_at (JDict d) (i + Z.of_nat (length l)) = Some e) as He'.
    { unfold entry_at in *. rewrite Hf in *.
      by rewrite <- list_index_from_end. }
    pose proof (wf_entry_line_items e Hwe) as Hok.
    by rewrite (total_revenue_entry _ _ _ He Hok),
               (total_revenue_entry _ _ _ He' Hok).
Qed.

Lemma total_revenue_index_witness :
  (total_revenue
     (filing (JInt 100) (JInt 3) (JInt 10) (JInt 15) (JInt 1)) 1
   = Raise IndexError <-> ~ (- 1 <= 1 < 1))
  /\ total_revenue
       (filing (JInt 100) (JInt 3) (JInt 10) (JInt 15) (JInt 1)) (-1)
     = total_revenue
         (filing (JInt 100) (JInt 3) (JInt 10) (JInt 15) (JInt 1)) 0.
Proof.
  pose proof (total_revenue_index
    {[ "financials" :=
         JList [entry "STANDALONE"
                  {[ "netRevenue" := JInt 100; pbitda_key := JInt 3 ]}
                  {[ "longTermBorrowings" := JInt 10;
                     "shortTermBorrowings" := JInt 15;
                     "interestExpenses" := JInt 1 ]}] ]}
    [entry "STANDALONE"
       {[ "netRevenue" := JInt 100; pbitda_key := JInt 3 ]}
       {[ "longTermBorrowings" := JInt 10;
          "shortTermBorrowings" := JInt 15;
          "interestExpenses" := JInt 1 ]}]) as H.
  split.
  - refine (proj1 (H 1 eq_refl _)). vm_compute. reflexivity.
  - refine (proj2 (H (-1) eq_refl _) _);
      [vm_compute; reflexivity | simpl length; lia].
Defined.

Lemma section_of_no_list (d : gmap string value) i name :
  d !! "financials" = None
  \/ (exists m, d !! "financials" = Some (JDict m)) ->
  section_of (JDict d) i name = Raise KeyError.
Proof.
  unfold section_of. simpl. by intros [-> | [m ->]].
Qed.

(** X8.  Without a ["financials"] key, or with a mapping in place of the
    list, every subscript fails with a [KeyError] that the handlers turn
    into 0.0: the three ratios are 0.0 and the flags RED, GREEN, RED at
    any index, although the selector raises on the same record when the key
    is absent. *)
Theorem ratios_without_financials (d : gmap string value) i :
  d !! "financials" = None
  \/ (exists m, d !! "financials" = Some (JDict m)) ->
  total_revenue (JDict d) i = Ok (JFloat f_zero)
  /\ total_borrowing (JDict d) i = Ok (JFloat f_zero)
  /\ iscr (JDict d) i = Ok (JFloat f_zero)
  /\ total_revenue_5cr_flag (JDict d) i = Ok FLAGS.RED
  /\ borrowing_to_revenue_flag (JDict d) i = Ok FLAGS.GREEN
  /\ iscr_flag (JDict d) i = Ok FLAGS.RED.
Proof.
  intros Hf.
  assert (total_revenue (JDict d) i = Ok (JFloat f_zero)) as Hr
    by (unfold total_revenue; rewrite (section_of_no_list d i _ Hf);
        reflexivity).
  assert (total_borrowing (JDict d) i = Ok (JFloat f_zero)) as Hb
    by (unfold total_borrowing; rewrite (section_of_no_list d i _ Hf);
        reflexivity).
  assert (iscr (JDict d) i = Ok (JFloat f_zero)) as Hi
    by (unfold iscr; rewrite (section_of_no_list d i "pnl" Hf);
        reflexivity).
  unfold total_revenue_5cr_flag, borrowing_to_revenue_flag, iscr_flag.
  rewrite Hr, Hb, Hi. repeat split; reflexivity.
Qed.

Lemma ratios_without_financials_witness :
  total_revenue (JDict ∅) 0 = Ok (JFloat f_zero)
  /\ total_borrowing (JDict ∅) 0 = Ok (JFloat f_zero)
  /\ iscr (JDict ∅) 0 = Ok (JFloat f_zero)
  /\ total_revenue_5cr_flag (JDict ∅) 0 = Ok FLAGS.RED
  /\ borrowing_to_revenue_flag (JDict ∅) 0 = Ok FLAGS.GREEN
  /\ iscr_flag (JDict ∅) 0 = Ok FLAGS.RED.
Proof. apply (ratios_without_financials ∅ 0). left. reflexivity. Defined.

(** X9.  [total_revenue_5cr_flag] adds one failure of its own: it returns
    a flag exactly when [total_revenue] gives a number and raises
    [TypeError] exactly when it gives anything else (a string, [None], a
    list, a mapping). *)
Theorem total_revenue_5cr_flag_needs_number data i v :
  total_revenue data i = Ok v ->
  (returns (total_revenue_5cr_flag data i) <-> is_Some (number_of v))
  /\ (total_revenue_5cr_flag data i = Raise TypeError
      <-> number_of v = None).
Proof.
  intros Hv. unfold total_revenue_5cr_flag. rewrite Hv, bind_ok.
  unfold Py.ge. destruct (number_of v) as [x|]; simpl.
  - split; split; try done; intros _; by eexists.
  - split; split; try done; by intros [? ?].
Qed.

Lemma total_revenue_5cr_flag_needs_number_witness :
  total_revenue_5cr_flag
    (filing (JStr "n/a") (JInt 3) (JInt 10) (JInt 15) (JInt 1)) 0
  = Raise TypeError.
Proof.
  refine (proj2 (proj2 (total_revenue_5cr_flag_needs_number
            (filing (JStr "n/a") (JInt 3) (JInt 10) (JInt 15) (JInt 1)) 0
            (JStr "n/a") _)) eq_refl).
  vm_compute. reflexivity.
Defined.

(** X10.  The other two classifiers add no failure: [iscr_flag] raises
    exactly what [iscr] raises and [borrowing_to_revenue_flag] exactly what
    [total_borrowing] raises, and each returns a flag whenever its ratio
    returns. *)
Theorem flags_raise_what_ratios_raise data i :
  (forall e, iscr_flag data i = Raise e <-> iscr data i = Raise e)
  /\ (forall e, borrowing_to_revenue_flag data i = Raise e
                <-> total_borrowing data i = Raise e)
  /\ (returns (iscr data i) -> returns (iscr_flag data i))
  /\ (returns (total_borrowing data i) ->
      returns (borrowing_to_revenue_flag data i)).
Proof.
  assert (forall v, iscr data i = Ok v -> returns (iscr_flag data i)) as Hi.
  { intros v Hv. destruct (iscr_float _ _ _ Hv) as [f ->].
    unfold iscr_flag. rewrite Hv, bind_ok.
    destruct (ge_int (JFloat f) _ 2 eq_refl) as (b & -> & _). by eexists. }
  assert (forall v, total_borrowing data i = Ok v ->
                    returns (borrowing_to_revenue_flag data i)) as Hb.
  { intros v Hv. destruct (total_borrowing_float _ _ _ Hv) as [f ->].
    unfold borrowing_to_revenue_flag. rewrite Hv, bind_ok.
    destruct (le_quarter (JFloat f) _ eq_refl) as (b & -> & _).
    by eexists. }
  split; [|split; [|split]].
  - intros e. destruct (iscr data i) as [v|e'] eqn:E.
    + destruct (Hi v eq_refl) as [a Ha]. rewrite Ha. by split.
    + unfold iscr_flag. rewrite E. split; by intros [= ->].
  - intros e. destruct (total_borrowing data i) as [v|e'] eqn:E.
    + destruct (Hb v eq_refl) as [a Ha]. rewrite Ha. by split.
    + unfold borrowing_to_revenue_flag. rewrite E.
      split; by intros [= ->].
  - intros [v Hv]. by apply (Hi v).
  - intros [v Hv]. by apply (Hb v).
Qed.

Lemma section_of_same_entry data i data' i' e name :
  entry_at data i = Some e -> entry_at data' i' = Some e ->
  section_of data i name = section_of data' i' name.
Proof.
  intros H H'.
  by rewrite (section_of_entry _ _ _ _ H), (section_of_entry _ _ _ _ H').
Qed.

(** X11.  The ratios and the flags depend on the selected entry alone: two
    records, or two indices, that select the same entry get the same three
    ratios and the same three flags, whatever else the records hold. *)
Theorem ratios_of_the_entry_alone data i data' i' e :
  entry_at data i = Some e ->
  entry_at data' i' = Some e ->
  total_revenue data i = total_revenue data' i'
  /\ total_borrowing data i = total_borrowing data' i'
  /\ iscr data i = iscr data' i'
  /\ total_revenue_5cr_flag data i = total_revenue_5cr_flag data' i'
  /\ borrowing_to_revenue_flag data i = borrowing_to_revenue_flag data' i'
  /\ iscr_flag data i = iscr_flag data' i'.
Proof.
  intros H H'.
  assert (total_revenue data i = total_revenue data' i') as Hr
    by (unfold total_revenue;
        by rewrite (section_of_same_entry _ _ _ _ _ "pnl" H H')).
  assert (total_borrowing data i = total_borrowing data' i') as Hb
    by (unfold total_borrowing;
        by rewrite (section_of_same_entry _ _ _ _ _ "bs" H H'), Hr).
  assert (iscr data i = iscr data' i') as Hi
    by (unfold iscr;
        by rewrite (section_of_same_entry _ _ _ _ _ "pnl" H H'),
                   (section_of_same_entry _ _ _ _ _ "bs" H H')).
  unfold total_revenue_5cr_flag, borrowing_to_revenue_flag, iscr_flag.
  by rewrite Hr, Hb, Hi.
Qed.

Lemma ratios_of_the_entry_alone_witness :
  total_revenue
    (record [entry "CONSOLIDATED" ∅ ∅;
             entry "STANDALONE" {[ "netRevenue" := JInt 7 ]} ∅]) 1
  = total_revenue
      (record [entry "STANDALONE" {[ "netRevenue" := JInt 7 ]} ∅]) 0.
Proof.
  refine (proj1 (ratios_of_the_entry_alone
            (record [entry "CONSOLIDATED" ∅ ∅;
                     entry "STANDALONE" {[ "netRevenue" := JInt 7 ]} ∅]) 1
            (record [entry "STANDALONE" {[ "netRevenue" := JInt 7 ]} ∅]) 0
            _ eq_refl eq_refl)).
Defined.

(** ** Consequences for the flags *)

(** X12.  An entry without a ["pnl"] section is RED on revenue and RED on
    interest cover, and GREEN on leverage whatever it has borrowed: the
    revenue is taken as 0.0 and the ratio is then 0.0. *)
Theorem flags_without_pnl data i e :
  entry_at data i = Some e ->
  line_items_ok e = true ->
  section e "pnl" = None ->
  total_revenue_5cr_flag data i = Ok FLAGS.RED
  /\ iscr_flag data i = Ok FLAGS.RED
  /\ (section e "bs" = None
      \/ (exists bs total,
            section e "bs" = Some bs
            /\ Py.add (field bs "longTermBorrowings")
                      (field bs "shortTermBorrowings") = Ok total) ->
      borrowing_to_revenue_flag data i = Ok FLAGS.GREEN).
Proof.
  intros He Hok Hp.
  pose proof (total_revenue_entry data i e He Hok) as Hr.
  rewrite Hp in Hr.
  pose proof (iscr_entry data i e He Hok) as Hi. rewrite Hp in Hi.
  split; [|split].
  - unfold total_revenue_5cr_flag. by rewrite Hr.
  - unfold iscr_flag. by rewrite Hi.
  - intros Hbs.
    assert (total_borrowing data i = Ok (JFloat f_zero)) as Hb.
    { unfold total_borrowing.
      rewrite (section_of_ok _ _ _ _ He Hok) by auto.
      destruct Hbs as [-> | (bs & total & -> & Hsum)]; [done|].
      simpl. unfold field in Hsum. by rewrite Hsum, Hr. }
    unfold borrowing_to_revenue_flag. by rewrite Hb.
Qed.

Lemma flags_without_pnl_witness :
  total_revenue_5cr_flag
    (record [JDict {[ "lineItems" := JDict {[ "bs" :=
       JDict {[ "longTermBorrowings" := JInt 1000000 ]} ]} ]}]) 0
  = Ok FLAGS.RED
  /\ iscr_flag
       (record [JDict {[ "lineItems" := JDict {[ "bs" :=
          JDict {[ "longTermBorrowings" := JInt 1000000 ]} ]} ]}]) 0
     = Ok FLAGS.RED
  /\ borrowing_to_revenue_flag
       (record [JDict {[ "lineItems" := JDict {[ "bs" :=
          JDict {[ "longTermBorrowings" := JInt 1000000 ]} ]} ]}]) 0
     = Ok FLAGS.GREEN.
Proof.
  pose proof (flags_without_pnl
    (record [JDict {[ "lineItems" := JDict {[ "bs" :=
       JDict {[ "longTermBorrowings" := JInt 1000000 ]} ]} ]}]) 0
    {[ "lineItems" := JDict {[ "bs" :=
       JDict {[ "longTermBorrowings" := JInt 1000000 ]} ]} ]}
    eq_refl eq_refl eq_refl) as (H1 & H2 & H3).
  split; [done|]. split; [done|]. apply H3. right.
  exists {[ "longTermBorrowings" := JInt 1000000 ]}, (JInt 1000000).
  split; vm_compute; reflexivity.
Defined.

Lemma le_quarter_nonpositive f :
  at_most (float_value f) 0 -> Py.le (JFloat f) (JFloat f_quarter) = Ok true.
Proof.
  intros Hf. destruct (le_quarter (JFloat f) _ eq_refl) as (b & -> & Hb).
  f_equal. apply Hb.
  destruct (float_value f) as [|neg|q]; simpl in *; try done.
  apply Qle_trans with 0%Q; [done | discriminate].
Qed.

Lemma ge_two_nonpositive f :
  at_most (float_value f) 0 -> Py.ge (JFloat f) (JInt 2) = Ok false.
Proof.
  intros Hf. destruct (ge_int (JFloat f) _ 2 eq_refl) as (b & -> & Hb).
  f_equal. destruct b; [|done]. exfalso.
  destruct Hb as [Hb _]. specialize (Hb eq_refl).
  destruct (float_value f) as [|neg|q]; simpl in *; try done.
  - by subst.
  - assert (2 <= 0)%Q as H by (by apply Qle_trans with q).
    by apply H.
Qed.

(** X13.  A negative integer revenue makes the leverage flag GREEN for any
    integer borrowings that do not sum below 0: the ratio is not positive.
    The only other outcome is the [OverflowError] of a quotient too large
    for a float. *)
Theorem negative_revenue_is_green data i e pnl bs revenue long short :
  entry_at data i = Some e ->
  line_items_ok e = true ->
  section e "pnl" = Some pnl ->
  section e "bs" = Some bs ->
  pnl !! "netRevenue" = Some (JInt revenue) ->
  field bs "longTermBorrowings" = JInt long ->
  field bs "shortTermBorrowings" = JInt short ->
  revenue < 0 -> 0 <= long + short ->
  borrowing_to_revenue_flag data i = Ok FLAGS.GREEN
  \/ borrowing_to_revenue_flag data i = Raise OverflowError.
Proof.
  intros He Hok Hp Hb Hrev Hl Hs Hneg Hsum.
  pose proof (total_revenue_entry data i e He Hok) as Hr.
  rewrite Hp, Hrev in Hr. simpl in Hr.
  assert (total_borrowing data i
          = Py.truediv (JInt (long + short)) (JInt revenue)) as Ht.
  { unfold total_borrowing.
    rewrite (section_of_ok _ _ _ _ He Hok) by auto. rewrite Hb. simpl.
    unfold field in Hl, Hs. rewrite Hl, Hs, Hr. simpl.
    assert (Py.ne_zero (JInt revenue) = true) as ->.
    { destruct revenue; [lia | lia | done]. }
    apply try_except_id. intros H.
    apply truediv_exn in H as [H | [H | H]]; discriminate. }
  unfold borrowing_to_revenue_flag. rewrite Ht.
  destruct (truediv_int_nonpositive (long + short) revenue)
    as [(f & -> & Hf) | ->]; [lia | nia | |by right].
  left. rewrite bind_ok, (le_quarter_nonpositive f Hf). reflexivity.
Qed.

Lemma negative_revenue_is_green_witness :
  borrowing_to_revenue_flag
    (filing (JInt (-100)) (JInt 3) (JInt 10) (JInt 15) (JInt 1)) 0
  = Ok FLAGS.GREEN.
Proof.
  destruct (negative_revenue_is_green
    (filing (JInt (-100)) (JInt 3) (JInt 10) (JInt 15) (JInt 1)) 0
    _ _ _ (-100) 10 15 eq_refl eq_refl eq_refl eq_refl eq_refl eq_refl
    eq_refl) as [H | H]; [lia | lia | exact H |].
  vm_compute in H. discriminate H.
Defined.

(** X14.  With integer fields, a [pbitda] of -1 or less and an
    [interestExpenses] of 0 or more make [iscr_flag] RED: the ratio is not
    positive.  The only other outcome is the [OverflowError] of a quotient
    too large for a float. *)
Theorem negative_pbitda_is_red data i e pnl bs pbitda interest :
  entry_at data i = Some e ->
  line_items_ok e = true ->
  section e "pnl" = Some pnl ->
  section e "bs" = Some bs ->
  field pnl pbitda_key = JInt pbitda ->
  field bs "interestExpenses" = JInt interest ->
  pbitda <= -1 -> 0 <= interest ->
  iscr_flag data i = Ok FLAGS.RED
  \/ iscr_flag data i = Raise OverflowError.
Proof.
  intros He Hok Hp Hb Hpb Hie Hneg Hpos.
  pose proof (iscr_entry data i e He Hok) as Hi.
  rewrite Hp, Hb, Hpb, Hie in Hi. simpl in Hi.
  unfold iscr_flag. rewrite Hi.
  destruct (truediv_int_nonpositive (pbitda + 1) (interest + 1))
    as [(f & -> & Hf) | ->]; [lia | nia | |by right].
  left. rewrite bind_ok, (ge_two_nonpositive f Hf). reflexivity.
Qed.

Lemma negative_pbitda_is_red_witness :
  iscr_flag (filing (JInt 100) (JInt (-5)) (JInt 10) (JInt 15) (JInt 1)) 0
  = Ok FLAGS.RED.
Proof.
  destruct (negative_pbitda_is_red
    (filing (JInt 100) (JInt (-5)) (JInt 10) (JInt 15) (JInt 1)) 0
    _ _ _ (-5) 1 eq_refl eq_refl eq_refl eq_refl eq_refl eq_refl)
    as [H | H]; [lia | lia | exact H |].
  vm_compute in H. discriminate H.
Defined.

Lemma ne_zero_int k : k <> 0 -> Py.ne_zero (JInt k) = true.
Proof. by destruct k. Qed.

(** X15.  For an integer [interestExpenses] and a numeric [pbitda], -1 is
    the one value on which [iscr] divides by zero: it raises
    [ZeroDivisionError] exactly when [interestExpenses] is -1. *)
Theorem iscr_zero_division_only_at_minus_one
    data i e pnl bs interest :
  entry_at data i = Some e ->
  line_items_ok e = true ->
  section e "pnl" = Some pnl ->
  section e "bs" = Some bs ->
  bs !! "interestExpenses" = Some (JInt interest) ->
  is_number (field pnl pbitda_key) = true ->
  iscr data i = Raise ZeroDivisionError <-> interest = -1.
Proof.
  intros He Hok Hp Hb Hie Hnum.
  pose proof (iscr_entry data i e He Hok) as Hi. rewrite Hp, Hb in Hi.
  assert (field bs "interestExpenses" = JInt interest) as Hf
    by (unfold field; by rewrite Hie).
  rewrite Hf in Hi. destruct (add_one_number _ Hnum) as (n & Hn & Hnn).
  rewrite Hn in Hi. simpl in Hi. rewrite Hi. split.
  - intros Hz. destruct (decide (interest = -1)) as [|Hne]; [done|].
    exfalso. revert Hz. eapply raises_only_not.
    + apply (truediv_guarded n (JInt (interest + 1))), ne_zero_int. lia.
    + not_in_list.
  - intros ->. by apply truediv_by_zero.
Qed.

Lemma iscr_zero_division_only_at_minus_one_witness :
  iscr (filing (JInt 100) (JInt 3) (JInt 10) (JInt 15) (JInt (-2))) 0
  <> Raise ZeroDivisionError.
Proof.
  intros H.
  apply (iscr_zero_division_only_at_minus_one
           (filing (JInt 100) (JInt 3) (JInt 10) (JInt 15) (JInt (-2))) 0
           _ _ _ (-2) eq_refl eq_refl eq_refl eq_refl eq_refl eq_refl) in H.
  discriminate H.
Defined.

(** ** The page *)

Lemma probe_model_5l_profit_flags data r :
  probe_model_5l_profit data = Ok r ->
  exists a b c,
    r = flags_dict a b c
    /\ (a = FLAGS.GREEN \/ a = FLAGS.RED)
    /\ (b = FLAGS.GREEN \/ b = FLAGS.AMBER)
    /\ (c = FLAGS.GREEN \/ c = FLAGS.RED).
Proof.
  unfold probe_model_5l_profit. intros H.
  inv_bind H. inv_bind H. inv_bind H. inv_bind H. injection H as <-.
  apply total_revenue_5cr_flag_range in Ha0.
  apply borrowing_to_revenue_flag_range in Ha1.
  apply iscr_flag_range in Ha2. eauto 10.
Qed.

Lemma flag_of_flags_dict a b c :
  flag_of (flags_dict a b c) "TOTAL_REVENUE_5CR_FLAG" = Ok (JInt a)
  /\ flag_of (flags_dict a b c) "BORROWING_TO_REVENUE_FLAG" = Ok (JInt b)
  /\ flag_of (flags_dict a b c) "ISCR_FLAG" = Ok (JInt c).
Proof. repeat split; vm_compute; reflexivity. Qed.

Lemma main_document_ok data a b c :
  (inner ← getitem_str data "data"; probe_model_5l_profit inner)
  = Ok (flags_dict a b c) ->
  main (document data)
  = ((page_top
      ++ [st_header "Financial Flags";
          st_write "TOTAL_REVENUE_5CR_FLAG:" (JInt a);
          st_write "BORROWING_TO_REVENUE_FLAG:" (JInt b);
          st_write "ISCR_FLAG:" (JInt c)])%list, Ok ()).
Proof.
  intros Hr. destruct (flag_of_flags_dict a b c) as (H1 & H2 & H3).
  unfold main, mbind, ui_bind, eval, show. simpl.
  unfold mbind, result_bind in *. rewrite Hr. simpl.
  by rewrite H1, H2, H3.
Qed.

Lemma main_document_raise data e :
  (inner ← getitem_str data "data"; probe_model_5l_profit inner) = Raise e ->
  main (document data) = (page_top, Raise e).
Proof.
  intros Hr. unfold main, mbind, ui_bind, eval, show. simpl.
  unfold mbind, result_bind in *. by rewrite Hr.
Qed.

(** X16.  After an evaluation that returns, the three subscripts of the
    result never fail: [main] shows the header and the three flags, in
    the order revenue, leverage, interest cover, each 0, 1 or 2, and ends
    without an exception. *)
Theorem main_shows_the_flags data inner r :
  getitem_str data "data" = Ok inner ->
  probe_model_5l_profit inner = Ok r ->
  exists a b c,
    r = flags_dict a b c
    /\ 0 <= a <= 2 /\ 0 <= b <= 2 /\ 0 <= c <= 2
    /\ main (document data)
       = ((page_top
           ++ [st_header "Financial Flags";
               st_write "TOTAL_REVENUE_5CR_FLAG:" (JInt a);
               st_write "BORROWING_TO_REVENUE_FLAG:" (JInt b);
               st_write "ISCR_FLAG:" (JInt c)])%list, Ok ()).
Proof.
  intros Hd Hr.
  destruct (probe_model_5l_profit_flags inner r Hr)
    as (a & b & c & -> & Ha & Hb & Hc).
  exists a, b, c. split; [done|].
  unfold FLAGS.GREEN, FLAGS.RED, FLAGS.AMBER in *.
  split; [lia|]. split; [lia|]. split; [lia|].
  apply main_document_ok. by rewrite Hd.
Qed.

Lemma main_shows_the_flags_witness :
  exists a b c,
    flags_dict 0 1 1 = flags_dict a b c
    /\ 0 <= a <= 2 /\ 0 <= b <= 2 /\ 0 <= c <= 2
    /\ main (document
               (JDict {[ "data" :=
                  filing (JInt 100) (JInt 3) (JInt 10) (JInt 15) (JInt 1) ]}))
       = ((page_top
           ++ [st_header "Financial Flags";
               st_write "TOTAL_REVENUE_5CR_FLAG:" (JInt a);
               st_write "BORROWING_TO_REVENUE_FLAG:" (JInt b);
               st_write "ISCR_FLAG:" (JInt c)])%list, Ok ()).
Proof.
  apply (main_shows_the_flags
           (JDict {[ "data" :=
              filing (JInt 100) (JInt 3) (JInt 10) (JInt 15) (JInt 1) ]})
           (filing (JInt 100) (JInt 3) (JInt 10) (JInt 15) (JInt 1))).
  - vm_compute. reflexivity.
  - vm_compute. reflexivity.
Defined.

(** X17.  [main] handles nothing but the [JSONDecodeError].  It ends with
    an exception exactly when reading or decoding the upload raises one
    that is not a [JSONDecodeError], or when the upload is a document on
    which [data["data"]] or the evaluation raises; the exception is that
    one, and nothing of the flags has been shown.  On a document, and
    unlike the orchestrator, it can end with a [KeyError]: exactly when
    the document is a mapping without the key ["data"]. *)
Theorem main_raises uploaded_file e :
  (snd (main uploaded_file) = Raise e
   <-> uploaded_file = loads_raises e
       \/ exists data,
            uploaded_file = document data
            /\ (inner ← getitem_str data "data";
                probe_model_5l_profit inner) = Raise e)
  /\ (snd (main uploaded_file) = Raise e ->
      fst (main uploaded_file) = page_top)
  /\ (forall data,
        uploaded_file = document data ->
        snd (main uploaded_file) = Raise KeyError
        <-> exists d : gmap string value,
              data = JDict d /\ d !! "data" = None).
Proof.
  destruct uploaded_file as [| |x|data].
  1, 2: split; [|split]; try done;
        split; [done | by intros [? | (? & ? & ?)]].
  { split; [|split]; try done. split.
    - intros [= ->]. by left.
    - by intros [[= ->] | (? & ? & ?)]. }
  destruct (inner ← getitem_str data "data"; probe_model_5l_profit inner)
    as [r|e'] eqn:E.
  - assert (snd (main (document data)) = Ok ()) as Hm.
    { apply bind_ok_inv in E as (inner & Hd & Hr).
      destruct (probe_model_5l_profit_flags inner r Hr)
        as (a & b & c & -> & _).
      rewrite (main_document_ok data a b c); [done|]. by rewrite Hd. }
    rewrite Hm. split; [|split]; try done.
    + split; [done|]. intros [? | (data' & [= <-] & H)]; congruence.
    + intros data' [= <-]. split; [done|]. intros (d & -> & H).
      simpl in E. by rewrite H in E.
  - rewrite (main_document_raise data e' E). simpl. split; [|split].
    + split.
      * intros [= ->]. right. by exists data.
      * intros [? | (data' & [= <-] & H)]; congruence.
    + done.
    + intros data' [= <-]. split.
      * intros [= ->]. destruct data as [| | | | | |d]; try discriminate.
        exists d. split; [done|]. simpl in E.
        destruct (d !! "data") as [inner|]; [|done]. simpl in E.
        exfalso. revert E. eapply raises_only_not;
          [apply probe_model_5l_profit_exn | not_in_list].
      * intros (d & -> & H). simpl in E. rewrite H in E.
        by injection E as <-.
Qed.

Lemma main_raises_witness :
  main (document (JDict ∅)) = (page_top, Raise KeyError)
  /\ fst (main (document (JDict {[ "data" := record [] ]}))) = page_top
  /\ main (loads_raises UnicodeDecodeError)
     = (page_top, Raise UnicodeDecodeError).
Proof.
  split; [|split].
  - destruct (main_raises (document (JDict ∅)) KeyError)
      as (_ & Htop & Hkey).
    assert (snd (main (document (JDict ∅))) = Raise KeyError) as H.
    { apply (Hkey (JDict ∅) eq_refl). exists ∅. split; reflexivity. }
    specialize (Htop H).
    by destruct (main (document (JDict ∅))) as [shown r]; simpl in *; subst.
  - apply (proj1 (proj2 (main_raises
             (document (JDict {[ "data" := record [] ]})) IndexError))).
    vm_compute. reflexivity.
  - destruct (main_raises (loads_raises UnicodeDecodeError)
                UnicodeDecodeError) as (Hiff & Htop & _).
    assert (snd (main (loads_raises UnicodeDecodeError))
            = Raise UnicodeDecodeError) as H by (apply Hiff; by left).
    specialize (Htop H).
    by destruct (main (loads_raises UnicodeDecodeError)) as [shown r];
      simpl in *; subst.
Defined.

(** X18.  On a well-formed record with at least one entry the selector
    finds an entry and no lookup fails: the orchestrator returns its flags
    or stops on the arithmetic, with an [OverflowError] or with a
    [ZeroDivisionError], and the latter comes from [iscr] alone. *)
Theorem probe_model_5l_profit_well_formed (d : gmap string value) l :
  wf_record (JDict d) = true ->
  d !! "financials" = Some (JList l) ->
  l <> [] ->
  exists i,
    latest_financial_index (JDict d) = Ok i
    /\ raises_only [ZeroDivisionError; OverflowError]
         (probe_model_5l_profit (JDict d))
    /\ (probe_model_5l_profit (JDict d) = Raise ZeroDivisionError ->
        iscr (JDict d) i = Raise ZeroDivisionError).
Proof.
  intros Hwf Hf Hne.
  assert (forallb is_dict l = true) as Hd.
  { apply wf_entry_is_dict. simpl in Hwf. by rewrite Hf in Hwf. }
  destruct (latest_financial_index_returns d l Hf Hd) as [i Hi].
  exists i. split; [done|]. split.
  - pose proof (probe_model_5l_profit_wf d l Hwf Hf Hne) as H.
    destruct (probe_model_5l_profit (JDict d)) as [r|e]; [done|].
    simpl in *. destruct H as [-> | ->]; in_list.
  - destruct (wf_record_entry d l i Hwf Hf Hne Hi) as (e & He & Hwe).
    unfold probe_model_5l_profit. rewrite Hi, bind_ok.
    destruct (total_revenue_5cr_flag_wf _ _ _ He Hwe) as [a ->].
    rewrite bind_ok.
    pose proof (borrowing_to_revenue_flag_exn (JDict d) i) as Hb.
    destruct (borrowing_to_revenue_flag (JDict d) i) as [b|x].
    2: { simpl. intros [= ->]. exfalso. revert Hb. simpl. not_in_list. }
    rewrite bind_ok. unfold iscr_flag.
    destruct (iscr (JDict d) i) as [v|x] eqn:E.
    + destruct (iscr_float _ _ _ E) as [f ->]. rewrite bind_ok.
      destruct (ge_int (JFloat f) _ 2 eq_refl) as (g & -> & _).
      discriminate.
    + simpl. by intros [= ->].
Qed.

Lemma probe_model_5l_profit_well_formed_witness :
  exists i,
    latest_financial_index
      (filing (JInt 100) (JInt 3) (JInt 10) (JInt 15) (JInt (-1))) = Ok i
    /\ raises_only [ZeroDivisionError; OverflowError]
         (probe_model_5l_profit
            (filing (JInt 100) (JInt 3) (JInt 10) (JInt 15) (JInt (-1))))
    /\ (probe_model_5l_profit
          (filing (JInt 100) (JInt 3) (JInt 10) (JInt 15) (JInt (-1)))
        = Raise ZeroDivisionError ->
        iscr (filing (JInt 100) (JInt 3) (JInt 10) (JInt 15) (JInt (-1))) i
        = Raise ZeroDivisionError).
Proof.
  refine (probe_model_5l_profit_well_formed
    {[ "financials" :=
         JList [entry "STANDALONE"
                  {[ "netRevenue" := JInt 100; pbitda_key := JInt 3 ]}
                  {[ "longTermBorrowings" := JInt 10;
                     "shortTermBorrowings" := JInt 15;
                     "interestExpenses" := JInt (-1) ]}] ]}
    [entry "STANDALONE"
       {[ "netRevenue" := JInt 100; pbitda_key := JInt 3 ]}
       {[ "longTermBorrowings" := JInt 10;
          "shortTermBorrowings" := JInt 15;
          "interestExpenses" := JInt (-1) ]}] _ eq_refl _).
  - vm_compute. reflexivity.
  - discriminate.
Defined.
